(** * generate_icons.py: the app-icon set generator

    A shallow embedding of [ScreenTimeRewardsProject/generate_icons.py].
    The script shells out to the [sips] image tool once per icon size and
    writes the asset-catalog manifest [Contents.json].

    Layout of the development:
    - [Py]: the Python builtins the script relies on (numbers, [str],
      [int], [os.path.join], [json.dump]);
    - [Script]: the filesystem/process world, [resize_image] and
      [generate_icons], parameterised by the external process launcher,
      and a few concrete launchers to run the script against;
    - [Obs]: what is observed of a run (the child processes it started,
      the entries that survive, the files written);
    - the properties of the script, then sample runs. *)

From Stdlib Require Import ZArith String Ascii List Floats DecimalString Lia.
From Stdlib Require DecimalPos DecimalZ.
From stdpp Require Import gmap strings list.

(** ** Python builtins *)

Module Py.

(** The script's numbers: [int] literals and the [float] literal [83.5]. *)
Inductive pynum :=
| PyInt (z : Z)
| PyFloat (f : float).

(** The exception classes that the script's calls can raise. *)
Inductive exn :=
| CalledProcessError
| OSError
| ValueError
| OverflowError.

Inductive result (A : Type) :=
| Ret (a : A)
| Raise (e : exn).
Arguments Ret {A} a.
Arguments Raise {A} e.

(** [float(z)] for an int operand of a mixed product: correctly rounded,
    [OverflowError] when the int is beyond the range of a double. *)
Definition float_of_int (z : Z) : result float :=
  match binary_normalize prec emax z 0 false with
  | S754_infinity _ => Raise OverflowError
  | sf => Ret (SF2Prim sf)
  end.

(** [a * b] where [b] is an int. *)
Definition py_mul (a : pynum) (b : Z) : result pynum :=
  match a with
  | PyInt z => Ret (PyInt (z * b))
  | PyFloat f =>
      match float_of_int b with
      | Ret g => Ret (PyFloat (f * g))
      | Raise e => Raise e
      end
  end.

(** [int(a)]: the identity on ints, truncation towards zero on floats. *)
Definition py_int (a : pynum) : result Z :=
  match a with
  | PyInt z => Ret z
  | PyFloat f =>
      match Prim2SF f with
      | S754_nan => Raise ValueError
      | S754_infinity _ => Raise OverflowError
      | S754_zero _ => Ret 0%Z
      | S754_finite s m e => Ret (cond_Zopp s (Z.shiftl (Zpos m) e))
      end
  end.

(** Exact comparison of an int with a float, as CPython performs it. *)
Definition int_eq_float (z : Z) (f : float) : bool :=
  match Prim2SF f with
  | S754_nan | S754_infinity _ => false
  | S754_zero _ => (z =? 0)%Z
  | S754_finite s m e =>
      if (0 <=? e)%Z then (z =? cond_Zopp s (Zpos m) * 2 ^ e)%Z
      else (z * 2 ^ (- e) =? cond_Zopp s (Zpos m))%Z
  end.

(** [a != b]. *)
Definition py_ne (a b : pynum) : bool :=
  match a, b with
  | PyInt x, PyInt y => negb (x =? y)%Z
  | PyFloat f, PyFloat g => negb (f =? g)%float
  | PyInt x, PyFloat g => negb (int_eq_float x g)
  | PyFloat f, PyInt y => negb (int_eq_float y f)
  end.

(** [str(z)] for an int.  The interpreter refuses the conversion beyond
    4300 digits; the model covers the ints below that limit (see
    [Obs.within_digit_limit]). *)
Definition str_int (z : Z) : string := NilZero.string_of_int (Z.to_int z).

(** [os.path.join(a, b)] (posixpath). *)
Definition starts_with_sep (s : string) : bool :=
  match s with
  | String c _ => Ascii.eqb c "/"
  | EmptyString => false
  end.

Fixpoint ends_with_sep (s : string) : bool :=
  match s with
  | EmptyString => false
  | String c EmptyString => Ascii.eqb c "/"
  | String _ rest => ends_with_sep rest
  end.

Definition os_path_join (a b : string) : string :=
  if starts_with_sep b then b
  else if (String.length a =? 0)%nat || ends_with_sep a then a +:+ b
  else a +:+ "/" +:+ b.

(** *** [json.dump]

    The values the script serialises: strings, ints, lists and dicts.  A
    dict keeps its insertion order, so it is an association list. *)
#[local] Unset Elimination Schemes.
Inductive json :=
| JStr (s : string)
| JInt (z : Z)
| JList (items : list json)
| JDict (fields : list (string * json)).
#[local] Set Elimination Schemes.

Definition dquote : ascii := ascii_of_nat 34.
Definition newline : ascii := ascii_of_nat 10.

Definition hex_digit (n : nat) : ascii :=
  nth n (list_ascii_of_string "0123456789abcdef") "0"%char.

(** One character of [py_encode_basestring_ascii]: the quote, the
    backslash and the five short escapes, [\u00xx] for everything else
    outside [' '..'~'].  A character of the model is a code point below
    256. *)
Definition escape_char (c : ascii) : string :=
  let n := nat_of_ascii c in
  if Ascii.eqb c dquote then String "\" (String dquote EmptyString)
  else if Ascii.eqb c "\" then "\\"
  else if (n =? 8)%nat then "\b"
  else if (n =? 12)%nat then "\f"
  else if (n =? 10)%nat then "\n"
  else if (n =? 13)%nat then "\r"
  else if (n =? 9)%nat then "\t"
  else if (n <? 32)%nat || (126 <? n)%nat then
    "\u00" +:+ String (hex_digit (n / 16)) (String (hex_digit (n mod 16)) EmptyString)
  else String c EmptyString.

Fixpoint escape_chars (s : string) : string :=
  match s with
  | EmptyString => EmptyString
  | String c rest => escape_char c +:+ escape_chars rest
  end.

Definition encode_basestring_ascii (s : string) : string :=
  String dquote (escape_chars s +:+ String dquote EmptyString).

Fixpoint spaces (n : nat) : string :=
  match n with
  | O => EmptyString
  | S k => String " " (spaces k)
  end.

(** The line break that starts every item at nesting depth [level]. *)
Definition newline_indent (indent level : nat) : string :=
  String newline (spaces (indent * level)).

(** [json.dumps(v, indent=indent)]: with an indent the item separator is
    [","] and the key separator [": "]; empty containers print closed. *)
Fixpoint iterencode (indent level : nat) (v : json) : string :=
  match v with
  | JStr s => encode_basestring_ascii s
  | JInt z => str_int z
  | JList items =>
      match items with
      | [] => "[]"
      | x :: xs =>
          "[" +:+ newline_indent indent (S level)
          +:+ iterencode indent (S level) x
          +:+ (fix rest (l : list json) : string :=
                 match l with
                 | [] => EmptyString
                 | y :: ys =>
                     "," +:+ newline_indent indent (S level)
                     +:+ iterencode indent (S level) y +:+ rest ys
                 end) xs
          +:+ newline_indent indent level +:+ "]"
      end
  | JDict fields =>
      match fields with
      | [] => "{}"
      | (k, x) :: xs =>
          "{" +:+ newline_indent indent (S level)
          +:+ encode_basestring_ascii k +:+ ": "
          +:+ iterencode indent (S level) x
          +:+ (fix rest (l : list (string * json)) : string :=
                 match l with
                 | [] => EmptyString
                 | (k', y) :: ys =>
                     "," +:+ newline_indent indent (S level)
                     +:+ encode_basestring_ascii k' +:+ ": "
                     +:+ iterencode indent (S level) y +:+ rest ys
                 end) xs
          +:+ newline_indent indent level +:+ "}"
      end
  end.

Definition json_dumps (indent : nat) (v : json) : string :=
  iterencode indent 0 v.

End Py.

(** ** The script *)

Module Script.
Import Py.

(** *** The world outside the interpreter *)

(** A file is a raster image of some pixel size or a text document.  Of
    an image only the pixel size is recorded, not the pixels. *)
Inductive file :=
| Image (width height : Z)
| Text (content : string).

(** How a child process ended: with an exit status, or not at all when
    the executable could not be started. *)
Inductive proc_status :=
| Exited (code : Z)
| NotLaunched.

Record proc_call := ProcCall { argv : list string; status : proc_status }.

Definition succeeded (c : proc_call) : Prop := status c = Exited 0.
Definition launched (c : proc_call) : Prop := status c <> NotLaunched.
Definition failed (c : proc_call) : Prop :=
  exists code, status c = Exited code /\ code <> 0%Z.

#[global] Instance proc_status_eq_dec : EqDecision proc_status.
Proof. solve_decision. Defined.

#[global] Instance file_eq_dec : EqDecision file.
Proof. solve_decision. Defined.

Definition succeededb (c : proc_call) : bool :=
  match status c with
  | Exited 0 => true
  | _ => false
  end.

#[global] Instance succeeded_dec c : Decision (succeeded c).
Proof. unfold succeeded. apply _. Defined.

#[global] Instance launched_dec c : Decision (launched c).
Proof. unfold launched. apply _. Defined.

#[global] Instance failed_dec c : Decision (failed c).
Proof.
  unfold failed. destruct (status c) as [code |].
  - destruct (decide (code = 0%Z)) as [Hz | Hnz].
    + right. intros (code' & Heq & Hne). congruence.
    + left. exists code. split; [reflexivity | exact Hnz].
  - right. intros (code' & Heq & _). discriminate.
Defined.

Section WithSystem.

(** Whatever the child processes depend on besides the files. *)
Variable Ext : Type.

(** The process launcher: the command line, the outside state and the
    files go in; the way the child ended and the new state come out. *)
Variable spawn :
  list string -> Ext -> gmap string file -> proc_status * Ext * gmap string file.

(** [repr] of a float, for an f-string field. *)
Variable float_repr : float -> string.

(** The files are found by their path as a string: no [..] is resolved
    and no letter case is folded. *)
Record World := MkWorld {
  files : gmap string file;
  env : Ext;
  stdout : list string;
  procs : list proc_call
}.

(** Statements run in a world and either return or raise. *)
Definition M (A : Type) : Type := World -> result A * World.

Definition ret {A} (a : A) : M A := fun w => (Ret a, w).
Definition raise {A} (e : exn) : M A := fun w => (Raise e, w).
Definition bind {A B} (m : M A) (k : A -> M B) : M B := fun w =>
  match m w with
  | (Ret a, w') => k a w'
  | (Raise e, w') => (Raise e, w')
  end.
Definition lift {A} (r : result A) : M A := fun w => (r, w).

(** [try: body except cls: handler]: only [cls] is caught. *)
Definition try_except {A} (body : M A) (cls : exn -> bool) (handler : M A) : M A :=
  fun w =>
    match body w with
    | (Raise e, w') => if cls e then handler w' else (Raise e, w')
    | r => r
    end.

Notation "x <- m ;; k" := (bind m (fun x => k))
  (at level 100, m at next level, right associativity).
Notation "m ;;; k" := (bind m (fun _ => k))
  (at level 100, right associativity).

Definition print (line : string) : M unit := fun w =>
  (Ret tt, MkWorld (files w) (env w) (stdout w ++ [line]) (procs w)).

Definition os_path_exists (path : string) : M bool := fun w =>
  (Ret (bool_decide (is_Some (files w !! path))), w).

(** [with open(path, "w") as f: json.dump(..., f)], given the text that
    [json.dump] produces: the file is created or truncated, then holds
    that text.  The path is taken to be writable: an [open] that fails
    is not modelled. *)
Definition write_text (path text : string) : M unit := fun w =>
  (Ret tt, MkWorld (<[path := Text text]> (files w)) (env w) (stdout w) (procs w)).

(** [subprocess.run(args, check=True, stdout=DEVNULL)], for arguments
    that the operating system takes (no NUL character, see
    [Obs.no_nul]). *)
Definition subprocess_run (args : list string) : M unit := fun w =>
  let '(st, e', fs') := spawn args (env w) (files w) in
  let w' := MkWorld fs' e' (stdout w) (procs w ++ [ProcCall args st]) in
  match st with
  | Exited 0 => (Ret tt, w')
  | Exited _ => (Raise CalledProcessError, w')
  | NotLaunched => (Raise OSError, w')
  end.

Definition is_CalledProcessError (e : exn) : bool :=
  match e with
  | CalledProcessError => true
  | _ => false
  end.

(** *** [resize_image] *)

Definition sips_argv (input_path output_path : string) (width height : Z) : list string :=
  ["sips"; "-z"; str_int height; str_int width; input_path; "--out"; output_path].

Definition resize_image (input_path output_path : string) (width height : Z) : M bool :=
  try_except
    (subprocess_run (sips_argv input_path output_path width height) ;;;
     ret true)
    is_CalledProcessError
    (print ("Failed to resize " +:+ input_path +:+ " to " +:+ output_path) ;;;
     ret false).

(** *** [generate_icons] *)

Definition base_dir : string :=
  "/Users/ameen/Documents/ScreenTime-BMAD/ScreenTimeRewardsProject/ScreenTimeRewards/Assets.xcassets/AppIcon.appiconset".

Definition master_icon : string := os_path_join base_dir "AppIcon.png".

(** One row of [configs]: (filename_suffix, size_pt, scale, idiom). *)
Record config := Config {
  suffix : string;
  size_pt : pynum;
  scale : Z;
  idiom : string
}.

Definition configs : list config := [
  (* iPhone *)
  Config "20x20@2x" (PyInt 20) 2 "iphone";
  Config "20x20@3x" (PyInt 20) 3 "iphone";
  Config "29x29@2x" (PyInt 29) 2 "iphone";
  Config "29x29@3x" (PyInt 29) 3 "iphone";
  Config "40x40@2x" (PyInt 40) 2 "iphone";
  Config "40x40@3x" (PyInt 40) 3 "iphone";
  Config "60x60@2x" (PyInt 60) 2 "iphone";
  Config "60x60@3x" (PyInt 60) 3 "iphone";
  (* iPad *)
  Config "20x20~ipad" (PyInt 20) 1 "ipad";
  Config "20x20@2x~ipad" (PyInt 20) 2 "ipad";
  Config "29x29~ipad" (PyInt 29) 1 "ipad";
  Config "29x29@2x~ipad" (PyInt 29) 2 "ipad";
  Config "40x40~ipad" (PyInt 40) 1 "ipad";
  Config "40x40@2x~ipad" (PyInt 40) 2 "ipad";
  Config "76x76~ipad" (PyInt 76) 1 "ipad";
  Config "76x76@2x~ipad" (PyInt 76) 2 "ipad";
  Config "83.5x83.5@2x~ipad" (PyFloat 83.5) 2 "ipad";
  (* Marketing *)
  Config "1024x1024" (PyInt 1024) 1 "ios-marketing"
].

(** [f"{x}"] for a number. *)
Definition py_str (x : pynum) : string :=
  match x with
  | PyInt z => str_int z
  | PyFloat f => float_repr f
  end.

Definition icon_filename (c : config) : string :=
  "Icon-" +:+ suffix c +:+ ".png".

Definition icon_path (c : config) : string :=
  os_path_join base_dir (icon_filename c).

(** [int(size_pt * scale)]. *)
Definition pixel_size (c : config) : result Z :=
  match py_mul (size_pt c) (scale c) with
  | Ret prod => py_int prod
  | Raise e => Raise e
  end.

Definition size_field (size_pt : pynum) : string :=
  if py_ne size_pt (PyFloat 83.5) then py_str size_pt +:+ "x" +:+ py_str size_pt
  else "83.5x83.5".

Definition entry (c : config) : json :=
  JDict [
    ("size", JStr (size_field (size_pt c)));
    ("idiom", JStr (idiom c));
    ("filename", JStr (icon_filename c));
    ("scale", JStr (str_int (scale c) +:+ "x"))
  ].

(** The body of the loop over [configs], on the accumulator
    [json_images]. *)
Definition loop_body (c : config) (json_images : list json) : M (list json) :=
  let output_path := icon_path c in
  px <- lift (pixel_size c) ;;
  ok <- resize_image master_icon output_path px px ;;
  if ok : bool then ret (json_images ++ [entry c]) else ret json_images.

Fixpoint for_configs (cs : list config) (json_images : list json) : M (list json) :=
  match cs with
  | [] => ret json_images
  | c :: rest =>
      json_images' <- loop_body c json_images ;;
      for_configs rest json_images'
  end.

Definition info : json := JDict [("version", JInt 1); ("author", JStr "xcode")].

Definition contents (json_images : list json) : json :=
  JDict [("images", JList json_images); ("info", info)].

Definition contents_path : string := os_path_join base_dir "Contents.json".

(** The list [images] that the script also initialises is never used. *)
Definition generate_icons : M unit :=
  found <- os_path_exists master_icon ;;
  if negb found then
    print ("Error: Master icon not found at " +:+ master_icon)
  else
    (* resize master to 1024x1024 first to fix warning *)
    resize_image master_icon master_icon 1024 1024 ;;;
    json_images <- for_configs configs [] ;;
    write_text contents_path (json_dumps 2 (contents json_images)) ;;;
    print "Successfully generated icons and Contents.json".

(** The file run as a program:
    [if __name__ == "__main__": generate_icons()].  The interpreter ends
    with status 0 when the call returns and with status 1 when an
    exception reaches the top level. *)
Definition main : World -> Z * World := fun w =>
  match generate_icons w with
  | (Ret _, w') => (0%Z, w')
  | (Raise _, w') => (1%Z, w')
  end.

End WithSystem.

Arguments MkWorld {Ext} _ _ _ _.
Arguments files {Ext} _.
Arguments env {Ext} _.
Arguments stdout {Ext} _.
Arguments procs {Ext} _.
Arguments resize_image {Ext} spawn _ _ _ _ _.
Arguments loop_body {Ext} spawn float_repr _ _ _.
Arguments for_configs {Ext} spawn float_repr _ _ _.
Arguments generate_icons {Ext} spawn float_repr _.
Arguments main {Ext} spawn float_repr _.

(** *** Launchers to run the script against *)

(** What [sips -z h w in --out out] leaves behind when it works: an image
    of [w] by [h] pixels at [out]. *)
Definition sips_writes (args : list string) (fs : gmap string file) : gmap string file :=
  match args with
  | [_; _; h; w; _; _; out] =>
      match NilZero.int_of_string w, NilZero.int_of_string h with
      | Some w', Some h' => <[out := Image (Z.of_int w') (Z.of_int h')]> fs
      | _, _ => fs
      end
  | _ => fs
  end.

(** Every command succeeds. *)
Definition spawn_ok (args : list string) (e : unit) (fs : gmap string file)
  : proc_status * unit * gmap string file :=
  (Exited 0, e, sips_writes args fs).

(** Every command exits with status 1 and touches nothing. *)
Definition spawn_fail (args : list string) (e : unit) (fs : gmap string file)
  : proc_status * unit * gmap string file :=
  (Exited 1, e, fs).

(** No executable: nothing can be started. *)
Definition spawn_missing (args : list string) (e : unit) (fs : gmap string file)
  : proc_status * unit * gmap string file :=
  (NotLaunched, e, fs).

(** Works unless the input is also the output. *)
Definition spawn_not_in_place (args : list string) (e : unit) (fs : gmap string file)
  : proc_status * unit * gmap string file :=
  match args with
  | [_; _; _; _; inp; _; out] =>
      if String.eqb inp out then (Exited 1, e, fs)
      else (Exited 0, e, sips_writes args fs)
  | _ => (Exited 1, e, fs)
  end.

(** Works except for the one output path [bad]. *)
Definition spawn_except (bad : string) (args : list string) (e : unit)
    (fs : gmap string file) : proc_status * unit * gmap string file :=
  match args with
  | [_; _; _; _; _; _; out] =>
      if String.eqb out bad then (Exited 1, e, fs)
      else (Exited 0, e, sips_writes args fs)
  | _ => (Exited 1, e, fs)
  end.

(** The first [fuel] commands succeed; after that nothing can be
    started any more. *)
Definition spawn_while (args : list string) (fuel : nat) (fs : gmap string file)
  : proc_status * nat * gmap string file :=
  match fuel with
  | O => (NotLaunched, O, fs)
  | S k => (Exited 0, k, sips_writes args fs)
  end.

Definition no_float_repr (f : float) : string := "".

(** A disk that holds only the master icon, 512 pixels square. *)
Definition world_with_master : World unit :=
  MkWorld {[ master_icon := Image 512 512 ]} tt [] [].

Definition empty_world : World unit := MkWorld ∅ tt [] [].

(** The runs used as examples below. *)
Definition run_ok := generate_icons spawn_ok no_float_repr world_with_master.

Definition run_ok_again := generate_icons spawn_ok no_float_repr (snd run_ok).

Definition run_all_fail := generate_icons spawn_fail no_float_repr world_with_master.

Definition unlucky : config := Config "29x29@3x" (PyInt 29) 3 "iphone".

Definition run_one_failure :=
  generate_icons (spawn_except (icon_path unlucky)) no_float_repr world_with_master.

Definition run_not_in_place :=
  generate_icons spawn_not_in_place no_float_repr world_with_master.

(** A run in which the tool disappears after three commands. *)
Definition world_with_fuel (fuel : nat) : World nat :=
  MkWorld {[ master_icon := Image 512 512 ]} fuel [] [].

Definition run_cut_short :=
  generate_icons spawn_while no_float_repr (world_with_fuel 3).

End Script.

(** ** Observations on a run *)

Module Obs.
Import Py Script.

(** The child processes started between world [w] and the later [w']. *)
Definition new_calls {Ext} (w w' : World Ext) : list proc_call :=
  drop (length (procs w)) (procs w').

(** The specifications whose resize, the call at the same position of
    [log], exited with status 0. *)
Fixpoint survivors (cs : list config) (log : list proc_call) : list config :=
  match cs, log with
  | c :: cs', call :: log' =>
      if succeededb call then c :: survivors cs' log' else survivors cs' log'
  | _, _ => []
  end.

Definition count_failed (log : list proc_call) : nat :=
  length (List.filter (fun call => negb (succeededb call)) log).

(** The diagnostic of [resize_image]. *)
Definition resize_diagnostic (input_path output_path : string) : string :=
  "Failed to resize " +:+ input_path +:+ " to " +:+ output_path.

Definition top_level_keys (v : json) : list string :=
  match v with
  | JDict fields => map fst fields
  | _ => []
  end.

Definition is_decimal_digit (c : ascii) : bool :=
  (48 <=? nat_of_ascii c)%nat && (nat_of_ascii c <=? 57)%nat.

Fixpoint all_digits (s : string) : bool :=
  match s with
  | EmptyString => true
  | String c rest => is_decimal_digit c && all_digits rest
  end.

(** The exact value of a Python number as a fraction [n / d], [d > 0];
    no value for an infinity or a NaN. *)
Definition exact_value (x : pynum) : option (Z * Z) :=
  match x with
  | PyInt z => Some (z, 1%Z)
  | PyFloat f =>
      match Prim2SF f with
      | S754_zero _ => Some (0%Z, 1%Z)
      | S754_finite s m e =>
          if (0 <=? e)%Z then Some (cond_Zopp s (Zpos m) * 2 ^ e, 1)%Z
          else Some (cond_Zopp s (Zpos m), 2 ^ (- e))%Z
      | _ => None
      end
  end.

(** The product [value × k] of the specification, computed exactly and
    then truncated towards zero. *)
Definition truncated_product (x : pynum) (k : Z) : option Z :=
  match exact_value x with
  | Some (n, d) => Some (Z.quot (n * k) d)
  | None => None
  end.

(** The tool, when a resize reports success, has left an image of the
    requested size at the output path and touched nothing else. *)
Definition sips_contract {Ext}
    (spawn : list string -> Ext -> gmap string file ->
             proc_status * Ext * gmap string file) : Prop :=
  forall inp out width height e fs e' fs',
    spawn (sips_argv inp out width height) e fs = (Exited 0, e', fs') ->
    fs' = <[out := Image width height]> fs.

(** The world right after the child process of [args] has ended. *)
Definition after_call {Ext}
    (spawn : list string -> Ext -> gmap string file ->
             proc_status * Ext * gmap string file)
    (w : World Ext) (args : list string) : World Ext :=
  let '(st, e', fs') := spawn args (env w) (files w) in
  MkWorld fs' e' (stdout w) (procs w ++ [ProcCall args st]).

(** How the child process of [args], started in [w], ends. *)
Definition call_status {Ext}
    (spawn : list string -> Ext -> gmap string file ->
             proc_status * Ext * gmap string file)
    (w : World Ext) (args : list string) : proc_status :=
  (spawn args (env w) (files w)).1.1.

(** [w] with one more line printed. *)
Definition with_line {Ext} (w : World Ext) (line : string) : World Ext :=
  MkWorld (files w) (env w) (stdout w ++ [line]) (procs w).

(** The command line of the resize that the loop issues for [c]. *)
Definition resize_args (c : config) (px : Z) : list string :=
  sips_argv master_icon (icon_path c) px px.

(** [call] is the resize of the specification [c]. *)
Definition invoked (c : config) (call : proc_call) : Prop :=
  exists px, pixel_size c = Ret px /\ argv call = resize_args c px.

Definition sized (c : config) : Prop := exists px, pixel_size c = Ret px.

(** The derivative files of the specifications [cs]. *)
Fixpoint written (cs : list config) : list (string * file) :=
  match cs with
  | [] => []
  | c :: rest =>
      match pixel_size c with
      | Ret px => (icon_path c, Image px px) :: written rest
      | Raise _ => written rest
      end
  end.

Definition write_all (l : list (string * file)) (fs : gmap string file)
  : gmap string file :=
  foldl (fun m kv => <[kv.1 := kv.2]> m) fs l.

Definition normalize_args : list string :=
  sips_argv master_icon master_icon 1024 1024.

Definition success_line : string :=
  "Successfully generated icons and Contents.json".

Definition missing_line : string :=
  "Error: Master icon not found at " +:+ master_icon.

(** The field [k] of a dict. *)
Definition json_field (k : string) (v : json) : option json :=
  match v with
  | JDict fields => snd <$> find (fun kv => String.eqb (fst kv) k) fields
  | _ => None
  end.

(** What an int prints as: digits, after a minus sign when negative. *)
Definition integer_literal (s : string) : bool :=
  match s with
  | EmptyString => false
  | String "-" (String c rest) => all_digits (String c rest)
  | _ => all_digits s
  end.

Definition quoted (s : string) : string :=
  String dquote (s +:+ String dquote EmptyString).

Definition lines_of (l : list string) : string :=
  String.concat (String newline EmptyString) l.

(** The manifest of a run in which no resize worked. *)
Definition empty_manifest_text : string :=
  lines_of [
    "{";
    "  " +:+ quoted "images" +:+ ": [],";
    "  " +:+ quoted "info" +:+ ": {";
    "    " +:+ quoted "version" +:+ ": 1,";
    "    " +:+ quoted "author" +:+ ": " +:+ quoted "xcode";
    "  }";
    "}"
  ].

(** The text around the list of entries in every manifest. *)
Definition manifest_head : string :=
  lines_of ["{"; "  " +:+ quoted "images" +:+ ": "].

Definition manifest_tail : string :=
  lines_of [
    ",";
    "  " +:+ quoted "info" +:+ ": {";
    "    " +:+ quoted "version" +:+ ": 1,";
    "    " +:+ quoted "author" +:+ ": " +:+ quoted "xcode";
    "  }";
    "}"
  ].

(** The world after [resize_image], whatever it returned. *)
Definition after_resize {Ext}
    (spawn : list string -> Ext -> gmap string file ->
             proc_status * Ext * gmap string file)
    (w : World Ext) (inp out : string) (width height : Z) : World Ext :=
  (resize_image spawn inp out width height w).2.

(** A path or argument that the operating system can take: it holds no
    NUL character. *)
Definition no_nul (s : string) : Prop :=
  Forall (fun c => c <> "000"%char) (list_ascii_of_string s).

(** An int that [str] prints: below the interpreter's limit of 4300
    digits for the conversion. *)
Definition within_digit_limit (z : Z) : Prop := (Z.abs z < 10 ^ 4300)%Z.

(** A call whose process ran and reported a failure. *)
Definition exited_nonzero (call : proc_call) : bool :=
  match status call with
  | Exited 0 => false
  | Exited _ => true
  | NotLaunched => false
  end.

(** The line [resize_image] prints about a [sips] command that failed,
    read off the command's input and output arguments. *)
Definition diagnostic_of (call : proc_call) : string :=
  match argv call with
  | [_; _; _; _; inp; _; out] => resize_diagnostic inp out
  | _ => ""
  end.

Definition pixels (c : config) : Z :=
  match pixel_size c with
  | Ret px => px
  | Raise _ => 0%Z
  end.

(** The commands of a complete run, in order. *)
Definition planned_commands : list (list string) :=
  normalize_args :: map (fun c => resize_args c (pixels c)) configs.


(** A [sips] command touches its output path only, and leaves an image
    of the requested size there when it reports success. *)
Definition sips_local {Ext}
    (spawn : list string -> Ext -> gmap string file ->
             proc_status * Ext * gmap string file) : Prop :=
  forall inp out width height e fs,
    (forall p, p <> out ->
       (spawn (sips_argv inp out width height) e fs).2 !! p = fs !! p) /\
    ((spawn (sips_argv inp out width height) e fs).1.1 = Exited 0 ->
     (spawn (sips_argv inp out width height) e fs).2 !! out
     = Some (Image width height)).

End Obs.

(** ** Properties *)

Import Py Script Obs.

(** Closed decidable goals are settled by evaluation. *)
Ltac decide_closed :=
  match goal with
  | |- ?P => refine (@bool_decide_unpack P _ _); vm_compute; exact I
  end.

Section Properties.

Context {Ext : Type}.
Variable spawn :
  list string -> Ext -> gmap string file -> proc_status * Ext * gmap string file.
Variable float_repr : float -> string.

Local Abbreviation resize_image := (Script.resize_image spawn).
Local Abbreviation loop_body := (Script.loop_body spawn float_repr).
Local Abbreviation for_configs := (Script.for_configs spawn float_repr).
Local Abbreviation generate_icons := (Script.generate_icons spawn float_repr).
Local Abbreviation entry := (Script.entry float_repr).
Local Abbreviation contents := (Script.contents).
Local Abbreviation after_call := (Obs.after_call spawn).
Local Abbreviation call_status := (Obs.call_status spawn).

(** *** [resize_image] *)

Lemma resize_image_run inp out width height (w : World Ext) :
  resize_image inp out width height w =
    let args := sips_argv inp out width height in
    match call_status w args with
    | Exited 0 => (Ret true, after_call w args)
    | Exited _ => (Ret false, with_line (after_call w args) (resize_diagnostic inp out))
    | NotLaunched => (Raise OSError, after_call w args)
    end.
Proof.
  unfold Script.resize_image, try_except, bind, subprocess_run.
  unfold Obs.call_status, Obs.after_call.
  destruct (spawn _ _ _) as [[st e'] fs']; simpl.
  destruct st as [[| p | p] |]; reflexivity.
Qed.

Lemma procs_after_call (w : World Ext) args :
  procs (after_call w args) = procs w ++ [ProcCall args (call_status w args)].
Proof.
  unfold Obs.call_status, Obs.after_call.
  destruct (spawn _ _ _) as [[st e'] fs']; reflexivity.
Qed.

Lemma stdout_after_call (w : World Ext) args :
  stdout (after_call w args) = stdout w.
Proof.
  unfold Obs.after_call.
  destruct (spawn _ _ _) as [[st e'] fs']; reflexivity.
Qed.

Lemma files_after_call inp out width height (w : World Ext) :
  sips_contract spawn ->
  call_status w (sips_argv inp out width height) = Exited 0 ->
  files (after_call w (sips_argv inp out width height))
  = <[out := Image width height]> (files w).
Proof.
  unfold Obs.call_status, Obs.after_call. intros Hc Hst.
  destruct (spawn _ _ _) as [[st e'] fs'] eqn:E; simpl in *; subst st.
  exact (Hc _ _ _ _ _ _ _ _ E).
Qed.

(** *** The loop *)

Lemma loop_body_run c acc (w : World Ext) px :
  pixel_size c = Ret px ->
  loop_body c acc w =
    match call_status w (resize_args c px) with
    | Exited 0 => (Ret (acc ++ [entry c]), after_call w (resize_args c px))
    | Exited _ =>
        (Ret acc,
         with_line (after_call w (resize_args c px))
                   (resize_diagnostic master_icon (icon_path c)))
    | NotLaunched => (Raise OSError, after_call w (resize_args c px))
    end.
Proof.
  intros Hpx. unfold Script.loop_body, bind, lift. rewrite Hpx.
  rewrite resize_image_run. unfold resize_args. simpl.
  destruct (call_status w _) as [[| p | p] |]; reflexivity.
Qed.

Lemma write_all_cons k v l (fs : gmap string file) :
  write_all ((k, v) :: l) fs = write_all l (<[k := v]> fs).
Proof. reflexivity. Qed.

Lemma written_cons c cs px :
  pixel_size c = Ret px -> written (c :: cs) = (icon_path c, Image px px) :: written cs.
Proof. intros H. simpl. rewrite H. reflexivity. Qed.

(** What one pass over [cs] does, read off the calls [log] it made and
    the [lines] it printed. *)
Lemma for_configs_run cs :
  Forall sized cs ->
  forall acc (w : World Ext) r w',
    for_configs cs acc w = (r, w') ->
    exists log lines,
      procs w' = procs w ++ log /\
      stdout w' = stdout w ++ lines /\
      (Forall launched log ->
         Forall2 invoked cs log /\
         r = Ret (acc ++ map entry (survivors cs log))) /\
      (sips_contract spawn -> Forall succeeded log ->
         files w' = write_all (written cs) (files w)).
Proof.
  induction 1 as [| c cs [px Hpx] _ IH]; intros acc w r w' Hrun.
  - apply pair_equal_spec in Hrun as [<- <-]. exists [], []. rewrite !app_nil_r.
    repeat split; auto.
  - simpl in Hrun. unfold bind in Hrun. rewrite (loop_body_run c acc w px Hpx) in Hrun.
    pose proof (procs_after_call w (resize_args c px)) as Hp.
    pose proof (stdout_after_call w (resize_args c px)) as Ho.
    destruct (call_status w (resize_args c px)) as [code |] eqn:Hst.
    + assert (Hinv : invoked c (ProcCall (resize_args c px) (Exited code)))
        by (exists px; split; [exact Hpx | reflexivity]).
      destruct (decide (code = 0%Z)) as [-> | Hne].
      * destruct (IH _ _ _ _ Hrun) as (log & lines & Hlog & Hout & Hl & Hf).
        exists (ProcCall (resize_args c px) (Exited 0) :: log), lines.
        split; [rewrite Hlog, Hp, <- app_assoc; reflexivity |].
        split; [rewrite Hout, Ho; reflexivity |].
        split.
        -- intros Hall. apply Forall_cons_1 in Hall as [_ Hall].
           destruct (Hl Hall) as [HF2 ->]. split; [constructor; assumption |].
           simpl. rewrite <- app_assoc. reflexivity.
        -- intros Hc Hall. apply Forall_cons_1 in Hall as [_ Hall].
           rewrite (Hf Hc Hall), (written_cons _ _ _ Hpx), write_all_cons.
           unfold resize_args. rewrite (files_after_call _ _ _ _ _ Hc Hst).
           reflexivity.
      * assert (Hrun' : for_configs cs acc
                  (with_line (after_call w (resize_args c px))
                     (resize_diagnostic master_icon (icon_path c))) = (r, w'))
          by (destruct code; [congruence | exact Hrun | exact Hrun]).
        destruct (IH _ _ _ _ Hrun') as (log & lines & Hlog & Hout & Hl & Hf).
        exists (ProcCall (resize_args c px) (Exited code) :: log),
               (resize_diagnostic master_icon (icon_path c) :: lines).
        split; [rewrite Hlog; simpl; rewrite Hp, <- app_assoc; reflexivity |].
        split; [rewrite Hout; simpl; rewrite Ho, <- app_assoc; reflexivity |].
        split.
        -- intros Hall. apply Forall_cons_1 in Hall as [_ Hall].
           destruct (Hl Hall) as [HF2 ->]. split; [constructor; assumption |].
           simpl. unfold succeededb; simpl. destruct code; [congruence | |]; reflexivity.
        -- intros _ Hall. apply Forall_cons_1 in Hall as [Hs _].
           unfold succeeded in Hs; simpl in Hs. congruence.
    + apply pair_equal_spec in Hrun as [<- <-].
      exists [ProcCall (resize_args c px) NotLaunched], [].
      rewrite app_nil_r. split; [exact Hp |]. split; [exact Ho |]. split.
      * intros Hall. apply Forall_cons_1 in Hall as [Hl _].
        unfold launched in Hl; simpl in Hl. congruence.
      * intros _ Hall. apply Forall_cons_1 in Hall as [Hs _].
        unfold succeeded in Hs; simpl in Hs. congruence.
Qed.

Lemma configs_sized : Forall sized configs.
Proof.
  unfold configs.
  repeat (constructor; [eexists; vm_compute; reflexivity |]).
  constructor.
Qed.

Lemma survivors_all cs log :
  length cs = length log -> Forall succeeded log -> survivors cs log = cs.
Proof.
  revert log. induction cs as [| c cs IH]; intros [| call log] Hlen Hall;
    simpl in *; try congruence.
  apply Forall_cons_1 in Hall as [Hs Hall].
  unfold succeededb. rewrite Hs. f_equal. apply IH; [lia | assumption].
Qed.

Lemma survivors_none cs log :
  Forall failed log -> survivors cs log = [].
Proof.
  revert log. induction cs as [| c cs IH]; intros [| call log] Hall;
    simpl in *; try reflexivity.
  apply Forall_cons_1 in Hall as [(code & Hs & Hne) Hall].
  unfold succeededb. rewrite Hs. destruct code; [congruence | |]; apply IH, Hall.
Qed.

Lemma succeeded_launched call : succeeded call -> launched call.
Proof. unfold succeeded, launched. congruence. Qed.

Lemma failed_launched call : failed call -> launched call.
Proof. unfold failed, launched. intros (code & -> & _). congruence. Qed.

(** *** The whole run *)

(** A run that finds the master icon, read off the calls it made: the
    normalisation first, then [log], the calls of the loop. *)
Lemma generate_icons_run (w : World Ext) r w' :
  is_Some (files w !! master_icon) ->
  generate_icons w = (r, w') ->
  exists log lines,
    let norm := ProcCall normalize_args (call_status w normalize_args) in
    procs w' = procs w ++ norm :: log /\
    (launched norm -> Forall launched log ->
       Forall2 invoked configs log /\
       r = Ret tt /\
       files w' !! contents_path
       = Some (Text (json_dumps 2 (contents (map entry (survivors configs log))))) /\
       stdout w' = stdout w ++ lines ++ [success_line]) /\
    (sips_contract spawn -> launched norm -> Forall succeeded log ->
       exists fs1,
         files w'
         = <[contents_path := Text (json_dumps 2 (contents (map entry configs)))]>
             (write_all (written configs) fs1) /\
         (succeeded norm -> fs1 = <[master_icon := Image 1024 1024]> (files w))).
Proof.
  intros Hm Hrun. unfold Script.generate_icons, bind, os_path_exists in Hrun.
  rewrite (bool_decide_eq_true_2 _ Hm) in Hrun.
  change (negb true) with false in Hrun. cbv beta iota in Hrun.
  rewrite resize_image_run in Hrun. fold normalize_args in Hrun. cbv zeta in Hrun.
  pose proof (procs_after_call w normalize_args) as Hp.
  pose proof (stdout_after_call w normalize_args) as Ho.
  destruct (call_status w normalize_args) as [code |] eqn:Hst.
  - set (w1 := if decide (code = 0%Z) then after_call w normalize_args
               else with_line (after_call w normalize_args)
                      (resize_diagnostic master_icon master_icon)).
    assert (Hp1 : procs w1 = procs w ++ [ProcCall normalize_args (Exited code)])
      by (subst w1; destruct (decide _); exact Hp).
    assert (Ho1 : exists l0, stdout w1 = stdout w ++ l0).
    { subst w1; destruct (decide _); simpl; rewrite Ho;
        [exists []; rewrite app_nil_r | eexists]; reflexivity. }
    assert (Hf1 : sips_contract spawn -> code = 0%Z ->
                  files w1 = <[master_icon := Image 1024 1024]> (files w)).
    { intros Hc ->. subst w1. cbn [decide]. unfold normalize_args.
      apply (files_after_call _ _ _ _ _ Hc). exact Hst. }
    assert (Hrun1 :
      match for_configs configs [] w1 with
      | (Ret json_images, w2) =>
          (Ret tt,
           with_line
             (MkWorld (<[contents_path := Text (json_dumps 2 (contents json_images))]>
                         (files w2)) (env w2) (stdout w2) (procs w2))
             success_line)
      | (Raise e, w2) => (Raise e, w2)
      end = (r, w')).
    { subst w1. destruct (decide (code = 0%Z)) as [-> | Hne]; [exact Hrun |].
      destruct code; [congruence | exact Hrun | exact Hrun]. }
    clearbody w1. clear Hrun.
    destruct (for_configs configs [] w1) as [r1 w2] eqn:Hloop.
    destruct (for_configs_run configs configs_sized _ _ _ _ Hloop)
      as (log & lines & Hlog & Hout & Hl & Hf).
    destruct Ho1 as [l0 Ho1].
    exists log, (l0 ++ lines). cbv zeta.
    assert (Hprocs : procs w2 = procs w ++ ProcCall normalize_args (Exited code) :: log)
      by (rewrite Hlog, Hp1, <- app_assoc; reflexivity).
    split.
    { destruct r1; apply pair_equal_spec in Hrun1 as [<- <-]; exact Hprocs. }
    split.
    + intros _ Hall. destruct (Hl Hall) as [HF2 ->]. apply pair_equal_spec in Hrun1 as [<- <-].
      cbn [with_line files stdout].
      split; [assumption |]. split; [reflexivity |].
      split; [apply lookup_insert_eq |].
      rewrite Hout, Ho1, <- !app_assoc. reflexivity.
    + intros Hc _ Hall.
      assert (Hall' : Forall launched log)
        by (eapply Forall_impl; [exact Hall | exact succeeded_launched]).
      destruct (Hl Hall') as [HF2 ->]. apply pair_equal_spec in Hrun1 as [<- <-].
      cbn [with_line files].
      rewrite (survivors_all configs log (Forall2_length _ _ _ HF2) Hall).
      rewrite (Hf Hc Hall). exists (files w1). split; [reflexivity |].
      intros Hs. unfold succeeded in Hs; simpl in Hs. apply (Hf1 Hc). congruence.
  - apply pair_equal_spec in Hrun as [<- <-]. exists [], []. cbv zeta. split; [exact Hp |].
    split.
    + intros Hl. unfold launched in Hl; simpl in Hl. congruence.
    + intros _ Hl. unfold launched in Hl; simpl in Hl. congruence.
Qed.

Lemma new_calls_app (w w' : World Ext) log :
  procs w' = procs w ++ log -> new_calls w w' = log.
Proof. intros H. unfold new_calls. rewrite H. apply drop_app_length. Qed.

Lemma new_calls_run (w w' : World Ext) r :
  is_Some (files w !! master_icon) ->
  generate_icons w = (r, w') ->
  exists log lines,
    let norm := ProcCall normalize_args (call_status w normalize_args) in
    new_calls w w' = norm :: log /\
    (Forall launched (new_calls w w') ->
       Forall2 invoked configs log /\
       r = Ret tt /\
       files w' !! contents_path
       = Some (Text (json_dumps 2 (contents (map entry (survivors configs log))))) /\
       stdout w' = stdout w ++ lines ++ [success_line]) /\
    (sips_contract spawn -> Forall launched (new_calls w w') ->
     Forall succeeded log ->
       exists fs1,
         files w'
         = <[contents_path := Text (json_dumps 2 (contents (map entry configs)))]>
             (write_all (written configs) fs1) /\
         (succeeded norm -> fs1 = <[master_icon := Image 1024 1024]> (files w))).
Proof.
  intros Hm Hrun.
  destruct (generate_icons_run w r w' Hm Hrun) as (log & lines & Hp & Hl & Hf).
  cbv zeta in *. exists log, lines. cbv zeta.
  rewrite (new_calls_app _ _ _ Hp).
  split; [reflexivity |]. split.
  - intros Hall. apply Forall_cons_1 in Hall as [H1 H2]. auto.
  - intros Hc Hall. apply Forall_cons_1 in Hall as [H1 H2]. auto.
Qed.

(** *** The files of a run *)

Lemma write_all_lookup_ne l (fs : gmap string file) k :
  k ∉ l.*1 -> write_all l fs !! k = fs !! k.
Proof.
  revert fs. induction l as [| [k' v'] l IH]; intros fs Hk; [reflexivity |].
  rewrite write_all_cons. rewrite fmap_cons, not_elem_of_cons in Hk.
  destruct Hk as [Hne Hk]. rewrite (IH _ Hk). apply lookup_insert_ne. auto.
Qed.

Lemma write_all_lookup l (fs : gmap string file) k v :
  NoDup l.*1 -> (k, v) ∈ l -> write_all l fs !! k = Some v.
Proof.
  revert fs. induction l as [| [k' v'] l IH]; intros fs Hnd Hin.
  - apply elem_of_nil in Hin as [].
  - rewrite write_all_cons. rewrite fmap_cons in Hnd.
    apply NoDup_cons in Hnd as [Hk' Hnd].
    apply elem_of_cons in Hin as [Heq | Hin].
    + injection Heq as -> ->. rewrite (write_all_lookup_ne _ _ _ Hk').
      apply lookup_insert_eq.
    + apply IH; assumption.
Qed.

Lemma written_elem c cs px :
  c ∈ cs -> pixel_size c = Ret px -> (icon_path c, Image px px) ∈ written cs.
Proof.
  intros Hin Hpx. induction cs as [| c' cs IH]; [apply elem_of_nil in Hin as [] |].
  apply elem_of_cons in Hin as [<- | Hin].
  - rewrite (written_cons _ _ _ Hpx). apply list_elem_of_here.
  - simpl. destruct (pixel_size c'); [apply list_elem_of_further |]; auto.
Qed.

Lemma written_paths : (written configs).*1 = map icon_path configs.
Proof. vm_compute. reflexivity. Qed.

Lemma icon_paths_distinct : NoDup (map icon_path configs).
Proof. decide_closed. Qed.

Lemma contents_path_fresh : contents_path ∉ master_icon :: map icon_path configs.
Proof. decide_closed. Qed.

Lemma master_icon_fresh : master_icon ∉ map icon_path configs.
Proof. decide_closed. Qed.

(** The files after writing, over [fs1], the derivatives of all
    specifications and the manifest [text]. *)
Lemma files_of_full_run (fs1 : gmap string file) text :
  let fs' := <[contents_path := text]> (write_all (written configs) fs1) in
  Forall (fun c => exists px, pixel_size c = Ret px /\
                              fs' !! icon_path c = Some (Image px px)) configs /\
  fs' !! master_icon = fs1 !! master_icon.
Proof.
  intros fs'. subst fs'. pose proof contents_path_fresh as Hfresh.
  apply not_elem_of_cons in Hfresh as [Hcm Hci]. split.
  - apply Forall_forall. intros c Hc.
    destruct (proj1 (Forall_forall _ _) configs_sized c Hc) as [px Hpx].
    exists px. split; [exact Hpx |].
    rewrite lookup_insert_ne.
    + apply write_all_lookup.
      * rewrite written_paths. exact icon_paths_distinct.
      * apply written_elem; assumption.
    + intros Heq. apply Hci. rewrite Heq.
      apply list_elem_of_In, in_map, list_elem_of_In. exact Hc.
  - rewrite lookup_insert_ne by exact Hcm.
    apply write_all_lookup_ne. rewrite written_paths. exact master_icon_fresh.
Qed.

(** C1 (amended). In every run in which the master image exists, the
    in-place normalisation of the master returns (with success or with
    failure) and each of the 18 per-specification resizes succeeds, the
    manifest holds exactly 18 entries, one per specification and in the
    order of [configs]; and, the tool writing what it reports, every
    specification has its own derivative file (18 distinct paths).  The
    master is 1024 by 1024 afterwards when its normalisation, the first
    call of the run, succeeded as well. *)
Theorem specification_resizes_succeed (w : World Ext) r w' :
  is_Some (files w !! master_icon) ->
  generate_icons w = (r, w') ->
  Forall launched (new_calls w w') ->
  Forall succeeded (tail (new_calls w w')) ->
  r = Ret tt /\
  head (new_calls w w')
  = Some (ProcCall normalize_args (call_status w normalize_args)) /\
  Forall2 invoked configs (tail (new_calls w w')) /\
  files w' !! contents_path
  = Some (Text (json_dumps 2 (contents (map entry configs)))) /\
  length (map entry configs) = 18%nat /\
  NoDup (map icon_path configs) /\
  length (map icon_path configs) = 18%nat /\
  (sips_contract spawn ->
     Forall (fun c => exists px, pixel_size c = Ret px /\
                                 files w' !! icon_path c = Some (Image px px)) configs /\
     (call_status w normalize_args = Exited 0 ->
      files w' !! master_icon = Some (Image 1024 1024))).
Proof.
  intros Hm Hrun Hla Hall.
  destruct (new_calls_run w w' r Hm Hrun) as (log & lines & Hn & Hl & Hf).
  cbv zeta in *. rewrite Hn in Hall |- *. cbn [tail head] in Hall |- *.
  destruct (Hl Hla) as (HF2 & -> & Hfile & _).
  rewrite (survivors_all _ _ (Forall2_length _ _ _ HF2) Hall) in Hfile.
  split; [reflexivity |]. split; [reflexivity |]. split; [exact HF2 |].
  split; [exact Hfile |].
  split; [reflexivity |].
  split; [exact icon_paths_distinct |].
  split; [reflexivity |].
  intros Hc. destruct (Hf Hc Hla Hall) as (fs1 & -> & Hnorm).
  destruct (files_of_full_run fs1
              (Text (json_dumps 2 (contents (map entry configs))))) as [Hd Hmaster].
  split; [exact Hd |]. intros Hst. rewrite Hmaster, (Hnorm Hst).
  apply lookup_insert_eq.
Qed.

(** C9. If the master image exists but every resize invocation exits
    with a non-zero status, [generate_icons] still returns normally and
    writes the manifest, with an empty "images" list next to the fixed
    "info" object, and the last line it prints is the success message. *)
Theorem all_resizes_fail (w : World Ext) r w' :
  is_Some (files w !! master_icon) ->
  generate_icons w = (r, w') ->
  Forall failed (new_calls w w') ->
  r = Ret tt /\
  files w' !! contents_path = Some (Text (json_dumps 2 (contents []))) /\
  contents [] = JDict [("images", JList []);
                       ("info", JDict [("version", JInt 1); ("author", JStr "xcode")])] /\
  json_dumps 2 (contents []) = empty_manifest_text /\
  last (stdout w') = Some success_line.
Proof.
  intros Hm Hrun Hall.
  destruct (new_calls_run w w' r Hm Hrun) as (log & lines & Hn & Hl & _).
  cbv zeta in *.
  assert (Hla : Forall launched (new_calls w w'))
    by (eapply Forall_impl; [exact Hall | exact failed_launched]).
  destruct (Hl Hla) as (_ & -> & Hfile & Hout).
  assert (Hlog : Forall failed log)
    by (rewrite Hn in Hall; apply Forall_cons_1 in Hall as [_ H]; exact H).
  rewrite (survivors_none _ _ Hlog) in Hfile.
  split; [reflexivity |]. split; [exact Hfile |].
  split; [reflexivity |]. split; [vm_compute; reflexivity |].
  rewrite Hout, !app_assoc. apply last_snoc.
Qed.

(** C8. Two runs in a row, the master image in place before each and
    every resize succeeding in both, leave the same manifest text: the
    second run rewrites the file with the bytes the first one wrote, the
    entries of [configs] in order. *)
Theorem manifest_idempotent (w0 w1 w2 : World Ext) r1 r2 :
  is_Some (files w0 !! master_icon) ->
  generate_icons w0 = (r1, w1) ->
  Forall succeeded (new_calls w0 w1) ->
  is_Some (files w1 !! master_icon) ->
  generate_icons w1 = (r2, w2) ->
  Forall succeeded (new_calls w1 w2) ->
  files w2 !! contents_path = files w1 !! contents_path /\
  files w1 !! contents_path
  = Some (Text (json_dumps 2 (contents (map entry configs)))).
Proof.
  intros Hm0 Hrun1 Hall1 Hm1 Hrun2 Hall2.
  assert (Hrun : forall (wa wb : World Ext) ra,
             is_Some (files wa !! master_icon) ->
             generate_icons wa = (ra, wb) ->
             Forall succeeded (new_calls wa wb) ->
             files wb !! contents_path
             = Some (Text (json_dumps 2 (contents (map entry configs))))).
  { intros wa wb ra Hm Hrun Hall.
    destruct (new_calls_run wa wb ra Hm Hrun) as (log & lines & Hn & Hl & _).
    cbv zeta in *.
    assert (Hla : Forall launched (new_calls wa wb))
      by (eapply Forall_impl; [exact Hall | exact succeeded_launched]).
    destruct (Hl Hla) as (HF2 & _ & Hfile & _).
    assert (Hlog : Forall succeeded log)
      by (rewrite Hn in Hall; apply Forall_cons_1 in Hall as [_ H]; exact H).
    rewrite (survivors_all _ _ (Forall2_length _ _ _ HF2) Hlog) in Hfile.
    exact Hfile. }
  rewrite (Hrun _ _ _ Hm0 Hrun1 Hall1), (Hrun _ _ _ Hm1 Hrun2 Hall2).
  split; reflexivity.
Qed.

(** *** Which entries survive *)

Lemma succeededb_true call : succeededb call = true <-> succeeded call.
Proof.
  unfold succeededb, succeeded. destruct (status call) as [[| p | p] |];
    split; congruence.
Qed.

Lemma survivors_length cs log :
  length cs = length log ->
  (length (survivors cs log) + count_failed log = length cs)%nat.
Proof.
  unfold count_failed. revert log.
  induction cs as [| c cs IH]; intros [| call log] Hlen; simpl in *;
    try congruence; try reflexivity.
  specialize (IH log ltac:(lia)).
  destruct (succeededb call); simpl; lia.
Qed.

Lemma survivors_sublist cs log : sublist (survivors cs log) cs.
Proof.
  revert log. induction cs as [| c cs IH]; intros [| call log]; simpl;
    try apply sublist_nil_l.
  destruct (succeededb call); [apply sublist_skip | apply sublist_cons]; apply IH.
Qed.

Lemma survivors_elem cs log i c call :
  NoDup cs ->
  cs !! i = Some c -> log !! i = Some call ->
  c ∈ survivors cs log <-> succeeded call.
Proof.
  revert log i. induction cs as [| c0 cs IH]; intros [| call0 log] i Hnd Hc Hcall;
    try discriminate.
  apply NoDup_cons in Hnd as [Hnotin Hnd].
  destruct i as [| i]; simpl in Hc, Hcall.
  - injection Hc as ->. injection Hcall as ->. simpl.
    rewrite <- succeededb_true. destruct (succeededb call).
    + split; [reflexivity | intros _; apply list_elem_of_here].
    + split; [| discriminate]. intros Hin. exfalso. apply Hnotin.
      apply (sublist_subseteq _ _ (survivors_sublist cs log)). exact Hin.
  - rewrite <- (IH log i Hnd Hc Hcall). simpl.
    assert (c <> c0).
    { intros ->. apply Hnotin. eapply list_elem_of_lookup_2. exact Hc. }
    destruct (succeededb call0); [| reflexivity].
    rewrite elem_of_cons. tauto.
Qed.

Lemma map_inj_on {A B} (f : A -> B) (l : list A) x y :
  NoDup (map f l) -> x ∈ l -> y ∈ l -> f x = f y -> x = y.
Proof.
  induction l as [| a l IH]; intros Hnd Hx Hy Heq.
  - apply elem_of_nil in Hx as [].
  - simpl in Hnd. apply NoDup_cons in Hnd as [Ha Hnd].
    assert (Hmem : forall z, z ∈ l -> f z ∈ map f l)
      by (intros z Hz; apply list_elem_of_In, in_map, list_elem_of_In; exact Hz).
    apply elem_of_cons in Hx as [-> | Hx]; apply elem_of_cons in Hy as [-> | Hy].
    + reflexivity.
    + exfalso. apply Ha. rewrite Heq. auto.
    + exfalso. apply Ha. rewrite <- Heq. auto.
    + auto.
Qed.

Lemma entry_filename c c' : entry c = entry c' -> icon_filename c = icon_filename c'.
Proof. unfold Script.entry. intros H. congruence. Qed.

Lemma icon_filenames_nodup : NoDup (map icon_filename configs).
Proof. decide_closed. Qed.

Lemma configs_nodup : NoDup configs.
Proof.
  apply (NoDup_fmap_1 icon_filename). exact icon_filenames_nodup.
Qed.

Lemma entry_survives log c :
  c ∈ configs ->
  entry c ∈ map entry (survivors configs log) <-> c ∈ survivors configs log.
Proof.
  intros Hc. split.
  - intros Hin. apply list_elem_of_In, in_map_iff in Hin as (c' & Heq & Hin').
    apply list_elem_of_In in Hin'.
    assert (c' = c) as <-; [| exact Hin'].
    apply (map_inj_on icon_filename configs); auto using icon_filenames_nodup.
    + apply (sublist_subseteq _ _ (survivors_sublist configs log)). exact Hin'.
    + apply entry_filename. exact Heq.
  - intros Hin. apply list_elem_of_In, in_map, list_elem_of_In. exact Hin.
Qed.

(** C2 (amended). Whatever the outcomes of the per-specification
    resizes, as long as every tool invocation of the run could be
    started (each resize returns [True], or [False] after a non-zero
    exit status), all 18 specifications are processed in order, the run
    returns normally and writes the manifest; its entries are those of
    the specifications whose resize succeeded, in the order of
    [configs], so their number is 18 minus the number of failed resizes
    and the entry of a specification is present exactly when its resize
    succeeded. *)
Theorem partial_failure_tolerated (w : World Ext) r w' :
  is_Some (files w !! master_icon) ->
  generate_icons w = (r, w') ->
  Forall launched (new_calls w w') ->
  exists norm log,
    new_calls w w' = norm :: log /\
    Forall2 invoked configs log /\
    r = Ret tt /\
    files w' !! contents_path
    = Some (Text (json_dumps 2 (contents (map entry (survivors configs log))))) /\
    length (map entry (survivors configs log)) = (18 - count_failed log)%nat /\
    sublist (map entry (survivors configs log)) (map entry configs) /\
    (forall i c call,
       configs !! i = Some c -> log !! i = Some call ->
       entry c ∈ map entry (survivors configs log) <-> succeeded call).
Proof.
  intros Hm Hrun Hall.
  destruct (new_calls_run w w' r Hm Hrun) as (log & lines & Hn & Hl & _).
  cbv zeta in *. destruct (Hl Hall) as (HF2 & -> & Hfile & _).
  eexists _, log. split; [exact Hn |]. split; [exact HF2 |].
  split; [reflexivity |]. split; [exact Hfile |].
  pose proof (survivors_length configs log (Forall2_length _ _ _ HF2)) as Hlen.
  change (length configs) with 18%nat in Hlen.
  split; [rewrite length_map; lia |].
  split.
  - change (map entry ?l) with (entry <$> l). apply fmap_sublist, survivors_sublist.
  - intros i c call Hc Hcall.
    rewrite (entry_survives log c) by (eapply list_elem_of_lookup_2; exact Hc).
    exact (survivors_elem configs log i c call configs_nodup Hc Hcall).
Qed.

(** C3 (amended). When the tool exits with a non-zero status,
    [resize_image] returns [False], prints one diagnostic that names the
    input path and the output path, and raises nothing.  When the tool
    cannot be started at all, the [OSError] of [subprocess.run] is not
    caught: it reaches the caller and nothing is printed. *)
Theorem resize_image_failure (w : World Ext) inp out width height :
  let args := sips_argv inp out width height in
  (forall code,
     call_status w args = Exited code -> code <> 0%Z ->
     resize_image inp out width height w
     = (Ret false,
        with_line (after_call w args)
          ("Failed to resize " +:+ inp +:+ " to " +:+ out)) /\
     stdout (resize_image inp out width height w).2
     = stdout w ++ ["Failed to resize " +:+ inp +:+ " to " +:+ out]) /\
  (call_status w args = NotLaunched ->
     resize_image inp out width height w = (Raise OSError, after_call w args) /\
     stdout (resize_image inp out width height w).2 = stdout w).
Proof.
  intros args. subst args. rewrite resize_image_run. cbv zeta.
  pose proof (stdout_after_call w (sips_argv inp out width height)) as Ho.
  split.
  - intros code -> Hne. destruct code; [congruence | |];
      (split; [reflexivity |]); cbn [snd with_line stdout]; rewrite Ho; reflexivity.
  - intros ->. split; [reflexivity | exact Ho].
Qed.

(** *** Pixel sizes *)

Lemma cond_Zopp_mul s a b : (cond_Zopp s a * b = cond_Zopp s (a * b))%Z.
Proof. destruct s; simpl; lia. Qed.

Lemma py_int_exact x :
  match exact_value x with
  | Some (n, d) => py_int x = Ret (Z.quot n d)
  | None => exists e, py_int x = Raise e
  end.
Proof.
  destruct x as [z | f]; unfold exact_value, py_int.
  - rewrite Z.quot_1_r. reflexivity.
  - destruct (Prim2SF f) as [s | s | | s m e]; cbv beta iota;
      try reflexivity; try (eexists; reflexivity).
    destruct (Z.leb_spec 0 e) as [Hle | Hlt]; cbv beta iota.
    + rewrite Z.quot_1_r, Z.shiftl_mul_pow2, cond_Zopp_mul by exact Hle.
      reflexivity.
    + rewrite Z.shiftl_div_pow2 by lia.
      assert (Hpow : (0 < 2 ^ (- e))%Z) by (apply Z.pow_pos_nonneg; lia).
      f_equal. destruct s; simpl.
      * change (Z.neg m) with (- Z.pos m)%Z.
        rewrite Z.quot_opp_l by lia. rewrite Z.quot_div_nonneg by lia.
        reflexivity.
      * rewrite Z.quot_div_nonneg by lia. reflexivity.
Qed.

Lemma configs_pixel_sizes :
  Forall (fun c => exists px,
            pixel_size c = Ret px /\
            truncated_product (size_pt c) (scale c) = Some px) configs.
Proof.
  unfold configs.
  repeat (constructor; [eexists; split; vm_compute; reflexivity |]).
  constructor.
Qed.

Lemma loop_body_call c acc (w : World Ext) px :
  pixel_size c = Ret px ->
  new_calls w (loop_body c acc w).2
  = [ProcCall ["sips"; "-z"; str_int px; str_int px; master_icon; "--out"; icon_path c]
       (call_status w (resize_args c px))].
Proof.
  intros Hpx. rewrite (loop_body_run c acc w px Hpx).
  pose proof (procs_after_call w (resize_args c px)) as Hp.
  apply new_calls_app.
  destruct (call_status w (resize_args c px)) as [[| p | p] |]; exact Hp.
Qed.

(** C5. For every specification the pixel dimension is
    [int(size_pt * scale)]: [int] truncates towards zero, the product is
    exact for each row of [configs], and the loop hands that one number
    to the resize as both height and width.  The row (83.5, 2, "ipad")
    gives 167 and the row (20, 3, "iphone") gives 60. *)
Theorem pixel_size_truncates :
  (forall x,
     match exact_value x with
     | Some (n, d) => py_int x = Ret (Z.quot n d)
     | None => exists e, py_int x = Raise e
     end) /\
  Forall (fun c => exists px,
            pixel_size c = Ret px /\
            truncated_product (size_pt c) (scale c) = Some px /\
            forall acc (w : World Ext),
              new_calls w (loop_body c acc w).2
              = [ProcCall ["sips"; "-z"; str_int px; str_int px;
                           master_icon; "--out"; icon_path c]
                   (call_status w (resize_args c px))]) configs /\
  pixel_size (Config "83.5x83.5@2x~ipad" (PyFloat 83.5) 2 "ipad") = Ret 167%Z /\
  pixel_size (Config "20x20@3x" (PyInt 20) 3 "iphone") = Ret 60%Z /\
  py_int (PyFloat 2.5) = Ret 2%Z /\
  py_int (PyFloat (-2.5)) = Ret (-2)%Z.
Proof.
  split; [exact py_int_exact |]. split.
  - eapply Forall_impl; [exact configs_pixel_sizes |].
    intros c (px & Hpx & Htr). exists px. split; [exact Hpx |].
    split; [exact Htr |]. intros acc w. apply loop_body_call. exact Hpx.
  - repeat split; vm_compute; reflexivity.
Qed.

(** *** The size field *)

Lemma string_of_uint_digits d : all_digits (NilEmpty.string_of_uint d) = true.
Proof. induction d; simpl; auto. Qed.

Lemma string_of_uint_literal d :
  integer_literal (NilZero.string_of_uint d) = true /\
  exists c rest, NilZero.string_of_uint d = String c rest /\
                 all_digits (String c rest) = true.
Proof.
  destruct d; simpl;
    (split; [first [reflexivity | apply string_of_uint_digits] |]);
    eexists _, _; (split; [reflexivity |]); simpl;
    first [reflexivity | apply string_of_uint_digits].
Qed.

Lemma str_int_literal z : integer_literal (str_int z) = true.
Proof.
  unfold str_int. destruct z as [| p | p]; simpl.
  - reflexivity.
  - apply string_of_uint_literal.
  - destruct (string_of_uint_literal (Pos.to_uint p)) as [_ (c & rest & -> & H)].
    exact H.
Qed.

Lemma prim2sf_83_5 : Prim2SF 83.5 = S754_finite false 5875790138834944 (-46).
Proof. vm_compute. reflexivity. Qed.

Lemma int_ne_83_5 z : py_ne (PyInt z) (PyFloat 83.5) = true.
Proof.
  unfold py_ne, int_eq_float. rewrite prim2sf_83_5.
  change (0 <=? -46)%Z with false. cbv iota.
  change (cond_Zopp false 5875790138834944) with 5875790138834944%Z.
  change (2 ^ (- -46))%Z with 70368744177664%Z.
  apply negb_true_iff, Z.eqb_neq. lia.
Qed.

Lemma size_field_int z :
  Script.size_field float_repr (PyInt z) = str_int z +:+ "x" +:+ str_int z.
Proof. unfold Script.size_field. rewrite int_ne_83_5. reflexivity. Qed.

Lemma size_field_83_5 : Script.size_field float_repr (PyFloat 83.5) = "83.5x83.5".
Proof. vm_compute. reflexivity. Qed.

(** C6. The size field of a manifest entry is the logical size written
    twice around an "x": 83.5 gives "83.5x83.5", and an integer size
    gives its decimal digits, with no decimal part, so 60 gives
    "60x60". *)
Theorem size_field_format :
  Script.size_field float_repr (PyFloat 83.5) = "83.5x83.5" /\
  (forall z,
     Script.size_field float_repr (PyInt z) = str_int z +:+ "x" +:+ str_int z /\
     integer_literal (str_int z) = true) /\
  Script.size_field float_repr (PyInt 60) = "60x60" /\
  Forall (fun c =>
            json_field "size" (entry c)
            = Some (JStr (Script.size_field float_repr (size_pt c))) /\
            exists s, Script.size_field float_repr (size_pt c) = s +:+ "x" +:+ s)
         configs.
Proof.
  split; [exact size_field_83_5 |].
  split; [intros z; split; [apply size_field_int | apply str_int_literal] |].
  split; [rewrite size_field_int; reflexivity |].
  unfold configs.
  repeat (constructor;
          [split; [reflexivity |];
           cbn [size_pt];
           first [rewrite size_field_int; eexists; reflexivity
                 | exists "83.5"; exact size_field_83_5] |]).
  constructor.
Qed.

(** *** The manifest document *)

(** C7 (amended). The manifest written by [generate_icons] is a document
    with two top-level fields, "images" with the ordered list of
    manifest entries (the entries of the specifications whose resize
    succeeded, in the order of [configs]) and "info" with the fixed
    object {version: 1, author: "xcode"}; it is serialised as JSON with
    an indentation of two spaces to [Contents.json] in the directory of
    the master image, whatever was at that path before. *)
Theorem manifest_document (w : World Ext) r w' :
  is_Some (files w !! master_icon) ->
  generate_icons w = (r, w') ->
  Forall launched (new_calls w w') ->
  let json_images := map entry (survivors configs (tail (new_calls w w'))) in
  files w' !! contents_path = Some (Text (json_dumps 2 (contents json_images))) /\
  sublist json_images (map entry configs) /\
  top_level_keys (contents json_images) = ["images"; "info"] /\
  json_field "images" (contents json_images) = Some (JList json_images) /\
  json_field "info" (contents json_images)
  = Some (JDict [("version", JInt 1); ("author", JStr "xcode")]) /\
  json_dumps 2 (contents json_images)
  = manifest_head +:+ iterencode 2 1 (JList json_images) +:+ manifest_tail /\
  contents_path = base_dir +:+ "/Contents.json" /\
  master_icon = base_dir +:+ "/AppIcon.png".
Proof.
  intros Hm Hrun Hall.
  destruct (new_calls_run w w' r Hm Hrun) as (log & lines & Hn & Hl & _).
  cbv zeta in *. destruct (Hl Hall) as (_ & _ & Hfile & _).
  rewrite Hn. cbn [tail].
  split; [exact Hfile |].
  split; [change (map entry ?l) with (entry <$> l);
          apply fmap_sublist, survivors_sublist |].
  generalize (map entry (survivors configs log)) as json_images.
  intros json_images. repeat split; vm_compute; reflexivity.
Qed.

(** *** File names *)

Lemma length_append s t :
  String.length (s +:+ t) = (String.length s + String.length t)%nat.
Proof. induction s as [| a s IH]; simpl; [reflexivity | rewrite IH; reflexivity]. Qed.

Lemma append_cancel_r s1 s2 t : s1 +:+ t = s2 +:+ t -> s1 = s2.
Proof.
  revert s2. induction s1 as [| a s1 IH]; intros [| b s2] H; simpl in H.
  - reflexivity.
  - apply (f_equal String.length) in H. rewrite !length_append in H. simpl in H. lia.
  - apply (f_equal String.length) in H. rewrite !length_append in H. simpl in H. lia.
  - injection H as -> H. f_equal. apply IH. exact H.
Qed.

Lemma icon_filename_inj c1 c2 :
  icon_filename c1 = icon_filename c2 <-> suffix c1 = suffix c2.
Proof.
  unfold icon_filename. split; [| intros ->; reflexivity].
  simpl. intros H. injection H as H.
  apply (append_cancel_r (suffix c1) (suffix c2) ".png"). exact H.
Qed.

(** C10. The 18 file names [Icon-<suffix>.png] are pairwise distinct,
    as the 18 suffixes are and the name determines the suffix; none is
    the master's [AppIcon.png].  So the 18 destination paths and the path
    of the master image are 19 different paths: no derivative is written
    over another derivative or over the master. *)
Theorem icon_filenames_distinct :
  length configs = 18%nat /\
  NoDup (map suffix configs) /\
  (forall c1 c2, icon_filename c1 = icon_filename c2 <-> suffix c1 = suffix c2) /\
  NoDup (map icon_filename configs) /\
  Forall (fun c => icon_filename c <> "AppIcon.png") configs /\
  master_icon = os_path_join base_dir "AppIcon.png" /\
  NoDup (master_icon :: map icon_path configs).
Proof.
  split; [reflexivity |].
  split; [decide_closed |].
  split; [exact icon_filename_inj |].
  split; [exact icon_filenames_nodup |].
  split; [decide_closed |].
  split; [reflexivity |].
  apply NoDup_cons. split; [exact master_icon_fresh | exact icon_paths_distinct].
Qed.

(** C4. If the master image does not exist at its fixed path,
    [generate_icons] prints a diagnostic naming the path and returns: the
    files are left as they were (no derivative, no manifest), no child
    process is started and no exception reaches the caller. *)
Theorem missing_master_returns_early (w : World Ext) :
  files w !! master_icon = None ->
  exists w',
    generate_icons w = (Ret tt, w') /\
    files w' = files w /\
    procs w' = procs w /\
    stdout w' = stdout w ++ [missing_line].
Proof.
  intros Hnone. exists (with_line w missing_line).
  unfold Script.generate_icons, bind, os_path_exists.
  rewrite bool_decide_eq_false_2 by (rewrite Hnone; apply is_Some_None).
  repeat split.
Qed.

End Properties.

(** ** Runs of the script against the sample launchers *)

Lemma int_of_str_int z : NilZero.int_of_string (str_int z) = Some (Z.to_int z).
Proof.
  unfold str_int. apply NilZero.isi; destruct z as [| p | p]; simpl;
    try discriminate; intros [= H]; exact (DecimalPos.Unsigned.to_uint_nonnil p H).
Qed.

Lemma sips_writes_argv inp out width height (fs : gmap string file) :
  sips_writes (sips_argv inp out width height) fs = <[out := Image width height]> fs.
Proof.
  unfold sips_writes, sips_argv. rewrite !int_of_str_int, !DecimalZ.of_to.
  reflexivity.
Qed.

Lemma spawn_ok_contract : sips_contract spawn_ok.
Proof.
  intros inp out width height e fs e' fs' H. unfold spawn_ok in H.
  apply pair_equal_spec in H as [_ <-]. apply sips_writes_argv.
Qed.

Lemma specification_resizes_succeed_witness :
  fst run_ok = Ret tt /\
  Forall2 invoked configs (tail (new_calls world_with_master (snd run_ok))) /\
  files (snd run_ok) !! contents_path
  = Some (Text (json_dumps 2 (contents (map (entry no_float_repr) configs)))) /\
  Forall (fun c => exists px, pixel_size c = Ret px /\
                              files (snd run_ok) !! icon_path c = Some (Image px px))
         configs /\
  files (snd run_ok) !! master_icon = Some (Image 1024 1024).
Proof.
  destruct (specification_resizes_succeed spawn_ok no_float_repr world_with_master
              (fst run_ok) (snd run_ok)) as (H1 & _ & H2 & H3 & _ & _ & _ & H4).
  - decide_closed.
  - apply surjective_pairing.
  - decide_closed.
  - decide_closed.
  - destruct (H4 spawn_ok_contract) as [H5 H6].
    split; [exact H1 |]. split; [exact H2 |]. split; [exact H3 |].
    split; [exact H5 |]. apply H6. vm_compute. reflexivity.
Defined.

Lemma all_resizes_fail_witness :
  fst run_all_fail = Ret tt /\
  files (snd run_all_fail) !! contents_path = Some (Text (json_dumps 2 (contents []))) /\
  contents [] = JDict [("images", JList []);
                       ("info", JDict [("version", JInt 1); ("author", JStr "xcode")])] /\
  json_dumps 2 (contents []) = empty_manifest_text /\
  last (stdout (snd run_all_fail)) = Some success_line.
Proof.
  apply (all_resizes_fail spawn_fail no_float_repr world_with_master).
  - decide_closed.
  - apply surjective_pairing.
  - decide_closed.
Defined.

Lemma manifest_idempotent_witness :
  files (snd run_ok_again) !! contents_path = files (snd run_ok) !! contents_path /\
  files (snd run_ok) !! contents_path
  = Some (Text (json_dumps 2 (contents (map (entry no_float_repr) configs)))).
Proof.
  apply (manifest_idempotent spawn_ok no_float_repr
           world_with_master (snd run_ok) (snd run_ok_again)
           (fst run_ok) (fst run_ok_again)).
  - decide_closed.
  - apply surjective_pairing.
  - decide_closed.
  - decide_closed.
  - apply surjective_pairing.
  - decide_closed.
Defined.

Lemma partial_failure_tolerated_witness :
  exists norm log,
    new_calls world_with_master (snd run_one_failure) = norm :: log /\
    Forall2 invoked configs log /\
    fst run_one_failure = Ret tt /\
    files (snd run_one_failure) !! contents_path
    = Some (Text (json_dumps 2
                    (contents (map (entry no_float_repr) (survivors configs log))))) /\
    length (map (entry no_float_repr) (survivors configs log))
    = (18 - count_failed log)%nat /\
    sublist (map (entry no_float_repr) (survivors configs log))
            (map (entry no_float_repr) configs) /\
    (forall i c call,
       configs !! i = Some c -> log !! i = Some call ->
       entry no_float_repr c ∈ map (entry no_float_repr) (survivors configs log)
       <-> succeeded call).
Proof.
  apply (partial_failure_tolerated (spawn_except (icon_path unlucky)) no_float_repr
           world_with_master).
  - decide_closed.
  - apply surjective_pairing.
  - decide_closed.
Defined.

Lemma manifest_document_witness :
  let json_images :=
    map (entry no_float_repr)
      (survivors configs (tail (new_calls world_with_master (snd run_one_failure)))) in
  files (snd run_one_failure) !! contents_path
  = Some (Text (json_dumps 2 (contents json_images))) /\
  sublist json_images (map (entry no_float_repr) configs) /\
  top_level_keys (contents json_images) = ["images"; "info"] /\
  json_field "images" (contents json_images) = Some (JList json_images) /\
  json_field "info" (contents json_images)
  = Some (JDict [("version", JInt 1); ("author", JStr "xcode")]) /\
  json_dumps 2 (contents json_images)
  = manifest_head +:+ iterencode 2 1 (JList json_images) +:+ manifest_tail /\
  contents_path = base_dir +:+ "/Contents.json" /\
  master_icon = base_dir +:+ "/AppIcon.png".
Proof.
  apply (manifest_document (spawn_except (icon_path unlucky)) no_float_repr
           world_with_master (fst run_one_failure)).
  - decide_closed.
  - apply surjective_pairing.
  - decide_closed.
Defined.

Lemma resize_image_failure_witness :
  resize_image spawn_fail master_icon master_icon 1024 1024 world_with_master
  = (Ret false,
     with_line (after_call spawn_fail world_with_master normalize_args)
       ("Failed to resize " +:+ master_icon +:+ " to " +:+ master_icon)) /\
  resize_image spawn_missing master_icon master_icon 1024 1024 world_with_master
  = (Raise OSError, after_call spawn_missing world_with_master normalize_args).
Proof.
  split.
  - apply (proj1 (resize_image_failure spawn_fail world_with_master
                    master_icon master_icon 1024 1024) 1%Z);
      [vm_compute; reflexivity | lia].
  - apply (proj2 (resize_image_failure spawn_missing world_with_master
                    master_icon master_icon 1024 1024)).
    vm_compute. reflexivity.
Defined.

Lemma missing_master_returns_early_witness :
  exists w',
    generate_icons spawn_ok no_float_repr empty_world = (Ret tt, w') /\
    files w' = files empty_world /\
    procs w' = procs empty_world /\
    stdout w' = stdout empty_world ++ [missing_line].
Proof.
  apply (missing_master_returns_early spawn_ok no_float_repr empty_world).
  vm_compute. reflexivity.
Defined.

(** *** Where the code departs from the specification *)

(** C3, as stated, fails: with no executable to start, [resize_image]
    does not return [False]; the [OSError] leaves it and no diagnostic is
    printed. *)
Lemma resize_image_raises_os_error :
  let run := resize_image spawn_missing master_icon master_icon 1024 1024
               world_with_master in
  call_status spawn_missing world_with_master normalize_args = NotLaunched /\
  fst run = Raise OSError /\
  fst run <> Ret false /\
  stdout (snd run) = [].
Proof.
  cbv zeta. split; [reflexivity |]. split; [vm_compute; reflexivity |].
  split; [vm_compute; discriminate | vm_compute; reflexivity].
Qed.

(** C7, as stated, fails: the manifest of a run has two top-level fields,
    not three. *)
Lemma manifest_has_two_top_level_fields :
  let doc := contents (map (entry no_float_repr) configs) in
  files (snd run_ok) !! contents_path = Some (Text (json_dumps 2 doc)) /\
  top_level_keys doc = ["images"; "info"] /\
  length (top_level_keys doc) <> 3%nat.
Proof.
  cbv zeta. split; [vm_compute; reflexivity |].
  split; [reflexivity | vm_compute; discriminate].
Qed.

Lemma spawn_not_in_place_contract : sips_contract spawn_not_in_place.
Proof.
  intros inp out width height e fs e' fs' H. unfold spawn_not_in_place in H.
  cbn [sips_argv] in H. destruct (String.eqb inp out).
  - apply pair_equal_spec in H as [H _]. discriminate.
  - apply pair_equal_spec in H as [_ <-]. apply sips_writes_argv.
Qed.

(** C1, as stated, fails: the normalisation of the master is best
    effort.  Here the tool honours its contract, the 18 resizes of the
    loop all succeed and their 18 entries are written, but the in-place
    resize of the master, the first of the 19 calls, fails: the run goes
    on and the master keeps its 512 by 512 pixels. *)
Lemma failed_normalisation_leaves_master :
  let calls := new_calls world_with_master (snd run_not_in_place) in
  is_Some (files world_with_master !! master_icon) /\
  length calls = 19%nat /\
  map argv (tail calls)
  = map (fun c => resize_args c match pixel_size c with
                                | Ret px => px
                                | Raise _ => 0%Z
                                end) configs /\
  Forall succeeded (tail calls) /\
  fst run_not_in_place = Ret tt /\
  files (snd run_not_in_place) !! contents_path
  = Some (Text (json_dumps 2 (contents (map (entry no_float_repr) configs)))) /\
  files (snd run_not_in_place) !! master_icon = Some (Image 512 512) /\
  files (snd run_not_in_place) !! master_icon <> Some (Image 1024 1024).
Proof.
  cbv zeta. split; [decide_closed |]. split; [vm_compute; reflexivity |].
  split; [vm_compute; reflexivity |]. split; [decide_closed |].
  split; [vm_compute; reflexivity |]. split; [vm_compute; reflexivity |].
  split; [vm_compute; reflexivity | vm_compute; discriminate].
Qed.

(** C2, as stated, fails when a resize fails because the tool cannot be
    started.  Here the normalisation and the first two resizes work and
    the third cannot be started: the [OSError] ends the run after four
    of the 19 calls, the remaining specifications are not processed and
    no manifest is written. *)
Lemma launch_failure_leaves_no_manifest :
  let calls := new_calls (world_with_fuel 3) (snd run_cut_short) in
  is_Some (files (world_with_fuel 3) !! master_icon) /\
  map argv calls = take 4 planned_commands /\
  map status calls = [Exited 0; Exited 0; Exited 0; NotLaunched] /\
  fst run_cut_short = Raise OSError /\
  fst run_cut_short <> Ret tt /\
  files (snd run_cut_short) !! contents_path = None /\
  length calls <> 19%nat.
Proof.
  cbv zeta. split; [decide_closed |].
  split; [vm_compute; reflexivity |]. split; [vm_compute; reflexivity |].
  split; [vm_compute; reflexivity |]. split; [vm_compute; discriminate |].
  split; [vm_compute; reflexivity | vm_compute; discriminate].
Qed.

(** With one failing resize the manifest has 17 entries. *)
Example one_failure_leaves_17_entries :
  count_failed (tail (new_calls world_with_master (snd run_one_failure))) = 1%nat /\
  survivors configs (tail (new_calls world_with_master (snd run_one_failure)))
  = List.filter (fun c => negb (String.eqb (suffix c) (suffix unlucky))) configs /\
  length (survivors configs (tail (new_calls world_with_master (snd run_one_failure))))
  = 17%nat.
Proof. repeat split; vm_compute; reflexivity. Qed.

(** ** Further properties of the script *)

Section MoreProperties.

Context {Ext : Type}.
Variable spawn :
  list string -> Ext -> gmap string file -> proc_status * Ext * gmap string file.
Variable float_repr : float -> string.

Local Abbreviation resize_image := (Script.resize_image spawn).
Local Abbreviation loop_body := (Script.loop_body spawn float_repr).
Local Abbreviation for_configs := (Script.for_configs spawn float_repr).
Local Abbreviation generate_icons := (Script.generate_icons spawn float_repr).
Local Abbreviation main := (Script.main spawn float_repr).
Local Abbreviation after_resize := (Obs.after_resize spawn).
Local Abbreviation entry := (Script.entry float_repr).
Local Abbreviation contents := (Script.contents).
Local Abbreviation after_call := (Obs.after_call spawn).
Local Abbreviation call_status := (Obs.call_status spawn).

(** *** The loop, one specification at a time *)

Lemma for_configs_cons c cs acc (w : World Ext) px :
  pixel_size c = Ret px ->
  for_configs (c :: cs) acc w =
    match call_status w (resize_args c px) with
    | Exited 0 =>
        for_configs cs (acc ++ [entry c]) (after_call w (resize_args c px))
    | Exited _ =>
        for_configs cs acc
          (with_line (after_call w (resize_args c px))
             (resize_diagnostic master_icon (icon_path c)))
    | NotLaunched => (Raise OSError, after_call w (resize_args c px))
    end.
Proof.
  intros Hpx. cbn [Script.for_configs]. unfold bind.
  rewrite (loop_body_run spawn float_repr c acc w px Hpx).
  destruct (call_status w (resize_args c px)) as [[| p | p] |]; reflexivity.
Qed.

Lemma pixels_sized c px : pixel_size c = Ret px -> pixels c = px.
Proof. unfold pixels. intros ->. reflexivity. Qed.

Lemma diagnostic_of_resize c px st :
  diagnostic_of (ProcCall (resize_args c px) st)
  = resize_diagnostic master_icon (icon_path c).
Proof. reflexivity. Qed.

(** The calls, the printed lines and the result of one pass over [cs]. *)
Lemma for_configs_trace cs :
  Forall sized cs ->
  forall acc (w : World Ext) r w',
    for_configs cs acc w = (r, w') ->
    exists log,
      procs w' = procs w ++ log /\
      map argv log
      = take (length log) (map (fun c => resize_args c (pixels c)) cs) /\
      stdout w' = stdout w ++ map diagnostic_of (List.filter exited_nonzero log) /\
      ((exists json_images, r = Ret json_images) /\
       Forall launched log /\ length log = length cs
       \/
       r = Raise OSError /\
       exists log0 call,
         log = log0 ++ [call] /\ Forall launched log0 /\ status call = NotLaunched).
Proof.
  induction 1 as [| c cs [px Hpx] _ IH]; intros acc w r w' Hrun.
  - apply pair_equal_spec in Hrun as [<- <-]. exists [].
    rewrite !app_nil_r. repeat split; auto. left. repeat split; eauto.
  - rewrite (for_configs_cons c cs acc w px Hpx) in Hrun.
    pose proof (procs_after_call spawn w (resize_args c px)) as Hp.
    pose proof (stdout_after_call spawn w (resize_args c px)) as Ho.
    destruct (call_status w (resize_args c px)) as [code |] eqn:Hst.
    + destruct (decide (code = 0%Z)) as [-> | Hne].
      * destruct (IH _ _ _ _ Hrun) as (log & Hlog & Hargv & Hout & Hres).
        exists (ProcCall (resize_args c px) (Exited 0) :: log).
        split; [rewrite Hlog, Hp, <- app_assoc; reflexivity |].
        split; [cbn [map length take argv]; rewrite (pixels_sized _ _ Hpx), Hargv;
                reflexivity |].
        split; [rewrite Hout, Ho; reflexivity |].
        destruct Hres as [(Hret & Hall & Hlen) | (Hraise & log0 & call & -> & Hall & Hn)].
        -- left. split; [exact Hret |]. split; [| cbn [length]; lia].
           constructor; [unfold launched; cbn [status]; congruence | exact Hall].
        -- right. split; [exact Hraise |].
           exists (ProcCall (resize_args c px) (Exited 0) :: log0), call.
           split; [reflexivity |]. split; [| exact Hn].
           constructor; [unfold launched; cbn [status]; congruence | exact Hall].
      * assert (Hrun' : for_configs cs acc
                  (with_line (after_call w (resize_args c px))
                     (resize_diagnostic master_icon (icon_path c))) = (r, w'))
          by (destruct code; [congruence | exact Hrun | exact Hrun]).
        assert (Hnz : exited_nonzero (ProcCall (resize_args c px) (Exited code)) = true)
          by (unfold exited_nonzero; cbn [status]; destruct code; [congruence | |];
              reflexivity).
        destruct (IH _ _ _ _ Hrun') as (log & Hlog & Hargv & Hout & Hres).
        exists (ProcCall (resize_args c px) (Exited code) :: log).
        split; [rewrite Hlog; cbn [with_line procs]; rewrite Hp, <- app_assoc;
                reflexivity |].
        split; [cbn [map length take argv]; rewrite (pixels_sized _ _ Hpx), Hargv;
                reflexivity |].
        split.
        { rewrite Hout. cbn [with_line stdout List.filter]. rewrite Hnz.
          cbn [map]. rewrite diagnostic_of_resize, Ho, <- app_assoc. reflexivity. }
        destruct Hres as [(Hret & Hall & Hlen) | (Hraise & log0 & call & -> & Hall & Hn)].
        -- left. split; [exact Hret |]. split; [| cbn [length]; lia].
           constructor; [unfold launched; cbn [status]; congruence | exact Hall].
        -- right. split; [exact Hraise |].
           exists (ProcCall (resize_args c px) (Exited code) :: log0), call.
           split; [reflexivity |]. split; [| exact Hn].
           constructor; [unfold launched; cbn [status]; congruence | exact Hall].
    + apply pair_equal_spec in Hrun as [<- <-].
      exists [ProcCall (resize_args c px) NotLaunched].
      split; [exact Hp |].
      split; [cbn [map length take argv]; rewrite (pixels_sized _ _ Hpx); reflexivity |].
      split; [cbn [List.filter exited_nonzero status map]; rewrite app_nil_r; exact Ho |].
      right. split; [reflexivity |].
      exists [], (ProcCall (resize_args c px) NotLaunched).
      repeat split. constructor.
Qed.

Lemma planned_commands_length : length planned_commands = 19%nat.
Proof. reflexivity. Qed.

(** Every run, read off its calls: either the master is missing and
    nothing happens, or the calls follow the plan until the end or until
    one cannot be started. *)
Lemma generate_icons_trace (w : World Ext) r w' :
  generate_icons w = (r, w') ->
  (files w !! master_icon = None /\ r = Ret tt /\ w' = with_line w missing_line)
  \/
  (is_Some (files w !! master_icon) /\
   exists calls,
     procs w' = procs w ++ calls /\
     map argv calls = take (length calls) planned_commands /\
     (r = Ret tt /\ Forall launched calls /\ length calls = 19%nat /\
      stdout w'
      = stdout w ++ map diagnostic_of (List.filter exited_nonzero calls)
                 ++ [success_line]
      \/
      r = Raise OSError /\
      (exists calls0 call,
         calls = calls0 ++ [call] /\ Forall launched calls0 /\
         status call = NotLaunched) /\
      stdout w' = stdout w ++ map diagnostic_of (List.filter exited_nonzero calls))).
Proof.
  intros Hrun. unfold Script.generate_icons, bind, os_path_exists in Hrun.
  destruct (files w !! master_icon) as [f |] eqn:Hm.
  2:{ left. rewrite bool_decide_eq_false_2 in Hrun by apply is_Some_None.
      apply pair_equal_spec in Hrun as [<- <-]. repeat split. }
  right. split; [eexists; reflexivity |].
  rewrite bool_decide_eq_true_2 in Hrun by (eexists; reflexivity).
  change (negb true) with false in Hrun. cbv beta iota in Hrun.
  rewrite resize_image_run in Hrun. fold normalize_args in Hrun. cbv zeta in Hrun.
  pose proof (procs_after_call spawn w normalize_args) as Hp.
  pose proof (stdout_after_call spawn w normalize_args) as Ho.
  destruct (call_status w normalize_args) as [code |] eqn:Hst.
  - set (norm := ProcCall normalize_args (Exited code)) in *.
    set (w1 := if decide (code = 0%Z) then after_call w normalize_args
               else with_line (after_call w normalize_args)
                      (resize_diagnostic master_icon master_icon)).
    assert (Hp1 : procs w1 = procs w ++ [norm])
      by (subst w1; destruct (decide _); exact Hp).
    assert (Ho1 : stdout w1
                  = stdout w ++ map diagnostic_of (List.filter exited_nonzero [norm])).
    { subst w1 norm. cbn [List.filter]. unfold exited_nonzero. cbn [status].
      destruct (decide (code = 0%Z)) as [-> | Hne].
      - cbn [map]. rewrite app_nil_r. exact Ho.
      - destruct code; [congruence | |]; cbn [with_line stdout map]; rewrite Ho;
          reflexivity. }
    assert (Hrun1 :
      match for_configs configs [] w1 with
      | (Ret json_images, w2) =>
          (Ret tt,
           with_line
             (MkWorld (<[contents_path := Text (json_dumps 2 (contents json_images))]>
                         (files w2)) (env w2) (stdout w2) (procs w2))
             success_line)
      | (Raise e, w2) => (Raise e, w2)
      end = (r, w')).
    { subst w1. destruct (decide (code = 0%Z)) as [-> | Hne]; [exact Hrun |].
      destruct code; [congruence | exact Hrun | exact Hrun]. }
    assert (Hlaunched : launched norm)
      by (subst norm; unfold launched; cbn [status]; congruence).
    clearbody w1. clear Hrun.
    destruct (for_configs configs [] w1) as [r1 w2] eqn:Hloop.
    destruct (for_configs_trace configs configs_sized _ _ _ _ Hloop)
      as (log & Hlog & Hargv & Hout & Hres).
    exists (norm :: log).
    assert (Hprocs : procs w2 = procs w ++ norm :: log)
      by (rewrite Hlog, Hp1, <- app_assoc; reflexivity).
    assert (Hplan : map argv (norm :: log)
                    = take (length (norm :: log)) planned_commands)
      by (unfold planned_commands; cbn [map length take]; rewrite Hargv;
          reflexivity).
    assert (Hlines : stdout w2
                     = stdout w ++ map diagnostic_of
                                     (List.filter exited_nonzero (norm :: log))).
    { rewrite Hout, Ho1, <- app_assoc, <- map_app.
      change (norm :: log) with ([norm] ++ log). rewrite List.filter_app.
      reflexivity. }
    destruct Hres as [((imgs & ->) & Hall & Hlen) | (-> & log0 & call & -> & Hall & Hn)];
      apply pair_equal_spec in Hrun1 as [<- <-].
    + split; [exact Hprocs |]. split; [exact Hplan |]. left.
      split; [reflexivity |]. split; [constructor; assumption |].
      split; [cbn [length]; rewrite Hlen; reflexivity |].
      cbn [with_line stdout]. rewrite Hlines, <- app_assoc. reflexivity.
    + split; [exact Hprocs |]. split; [exact Hplan |]. right.
      split; [reflexivity |]. split; [| exact Hlines].
      exists (norm :: log0), call. split; [reflexivity |].
      split; [constructor; assumption | exact Hn].
  - apply pair_equal_spec in Hrun as [<- <-].
    exists [ProcCall normalize_args NotLaunched].
    split; [exact Hp |]. split; [reflexivity |]. right.
    split; [reflexivity |]. split.
    + exists [], (ProcCall normalize_args NotLaunched). repeat split. constructor.
    + cbn [List.filter exited_nonzero status map]. rewrite app_nil_r. exact Ho.
Qed.

Lemma not_all_launched calls0 call :
  status call = NotLaunched -> ~ Forall launched (calls0 ++ [call]).
Proof.
  intros Hn Hall. apply Forall_app in Hall as [_ Hall].
  apply Forall_cons_1 in Hall as [Hl _]. exact (Hl Hn).
Qed.

(** How a run ends, in terms of the calls it made. *)
Lemma raises_only_on_launch_failure_aux (w : World Ext) :
  let r := (generate_icons w).1 in
  let w' := (generate_icons w).2 in
  (r = Ret tt \/ r = Raise OSError) /\
  (r = Ret tt <-> Forall launched (new_calls w w')) /\
  (files w !! master_icon = None -> r = Ret tt).
Proof.
  cbv zeta.
  destruct (generate_icons_trace w _ _ (surjective_pairing (generate_icons w)))
    as [(Hm & Hr & Hw) | ([f Hf] & calls & Hp & _ & Hres)].
  - rewrite Hr, Hw. unfold new_calls. cbn [with_line procs].
    rewrite drop_all. split; [left; reflexivity |].
    split; [split; [constructor | reflexivity] | reflexivity].
  - rewrite (new_calls_app w _ _ Hp).
    destruct Hres as [(Hr & Hall & _) | (Hr & (calls0 & call & -> & Hall & Hn) & _)];
      rewrite Hr.
    + split; [left; reflexivity |]. split; [split; auto | congruence].
    + split; [right; reflexivity |]. split; [| congruence].
      split; [discriminate |]. intros Hbad.
      exfalso. exact (not_all_launched _ _ Hn Hbad).
Qed.

Lemma unlaunched_is_last (l0 : list proc_call) c calls0 call rest :
  l0 ++ [c] = calls0 ++ call :: rest ->
  Forall launched l0 ->
  status call = NotLaunched ->
  rest = [] /\ calls0 = l0.
Proof.
  intros Heq Hall Hn. destruct rest as [| x rest] using rev_ind.
  - apply app_inj_tail in Heq as [-> _]. split; reflexivity.
  - clear IHrest. change (calls0 ++ call :: rest ++ [x])
      with (calls0 ++ (call :: rest) ++ [x]) in Heq.
    rewrite app_assoc in Heq. apply app_inj_tail in Heq as [-> _].
    apply Forall_app in Hall as [_ Hall]. apply Forall_cons_1 in Hall as [Hl _].
    exfalso. exact (Hl Hn).
Qed.

Lemma launch_failure_aux (w : World Ext) calls0 call rest :
  new_calls w (generate_icons w).2 = calls0 ++ call :: rest ->
  status call = NotLaunched ->
  (generate_icons w).1 = Raise OSError /\ rest = [] /\ Forall launched calls0.
Proof.
  intros Hcalls Hn.
  destruct (generate_icons_trace w _ _ (surjective_pairing (generate_icons w)))
    as [(_ & _ & Hw) | (_ & calls & Hp & _ & Hres)].
  - rewrite Hw in Hcalls. unfold new_calls in Hcalls. cbn [with_line procs] in Hcalls.
    rewrite drop_all in Hcalls. destruct calls0; discriminate.
  - rewrite (new_calls_app w _ _ Hp) in Hcalls. subst calls.
    destruct Hres as [(_ & Hall & _) | (Hr & (l0 & c & Heq & Hall & _) & _)].
    + apply Forall_app in Hall as [_ Hall]. apply Forall_cons_1 in Hall as [Hl _].
      exfalso. exact (Hl Hn).
    + symmetry in Heq.
      destruct (unlaunched_is_last _ _ _ _ _ Heq Hall Hn) as [-> ->]. auto.
Qed.

(** X1. A tool invocation that cannot be started ends the run on the
    spot: [generate_icons] raises the [OSError], that call is the last
    one of the run (later specifications are not attempted) and every
    call before it had started.  Conversely a run that returns has
    started every child process it asked for. *)
Theorem launch_failure_ends_the_run (w : World Ext) :
  let r := (generate_icons w).1 in
  let w' := (generate_icons w).2 in
  (r = Ret tt -> Forall launched (new_calls w w')) /\
  (forall calls0 call rest,
     new_calls w w' = calls0 ++ call :: rest ->
     status call = NotLaunched ->
     r = Raise OSError /\ rest = [] /\ Forall launched calls0).
Proof.
  cbv zeta. split.
  - destruct (raises_only_on_launch_failure_aux w) as (_ & Hiff & _).
    apply Hiff.
  - intros calls0 call rest. apply launch_failure_aux.
Qed.

(** X2. The commands of a run do not depend on how the earlier ones
    ended: they are the first commands of one fixed plan of 19, the
    normalisation and then one resize per specification in the order of
    [configs].  A run that returns with the master present has issued
    the whole plan; a run without master issues none. *)
Theorem commands_follow_the_plan (w : World Ext) :
  let r := (generate_icons w).1 in
  let w' := (generate_icons w).2 in
  map argv (new_calls w w') = take (length (new_calls w w')) planned_commands /\
  length planned_commands = 19%nat /\
  (files w !! master_icon = None -> new_calls w w' = []) /\
  (is_Some (files w !! master_icon) -> r = Ret tt ->
   map argv (new_calls w w') = planned_commands).
Proof.
  cbv zeta.
  destruct (generate_icons_trace w _ _ (surjective_pairing (generate_icons w)))
    as [(Hm & Hr & Hw) | (Hm & calls & Hp & Hplan & Hres)].
  - rewrite Hw. unfold new_calls. cbn [with_line procs]. rewrite drop_all.
    split; [reflexivity |]. split; [reflexivity |]. split; [reflexivity |].
    intros [f Hf]. congruence.
  - rewrite (new_calls_app w _ _ Hp).
    split; [exact Hplan |]. split; [reflexivity |].
    split; [intros Hnone; destruct Hm as [f Hf]; congruence |].
    intros _ Hr.
    destruct Hres as [(_ & _ & Hlen & _) | (Hr' & _)]; [| congruence].
    rewrite Hplan, Hlen. apply take_ge. rewrite planned_commands_length. lia.
Qed.

(** X3. With the master present, what a run prints is exactly one
    diagnostic per resize that exited with a non-zero status, in the
    order of the calls and naming the master and the destination of that
    call, followed by the success line when the run returns.  A command
    that could not be started leaves no line. *)
Theorem diagnostics_match_failures (w : World Ext) r w' :
  is_Some (files w !! master_icon) ->
  generate_icons w = (r, w') ->
  stdout w'
  = stdout w
      ++ map diagnostic_of (List.filter exited_nonzero (new_calls w w'))
      ++ match r with
         | Ret _ => [success_line]
         | Raise _ => []
         end.
Proof.
  intros [f Hf] Hrun.
  destruct (generate_icons_trace w r w' Hrun)
    as [(Hm & _) | (_ & calls & Hp & _ & Hres)]; [congruence |].
  rewrite (new_calls_app w _ _ Hp).
  destruct Hres as [(-> & _ & _ & Hout) | (-> & _ & Hout)]; rewrite Hout.
  - reflexivity.
  - rewrite app_nil_r. reflexivity.
Qed.

Lemma missing_master_unchanged (w : World Ext) :
  files w !! master_icon = None ->
  (generate_icons w).1 = Ret tt /\ files (generate_icons w).2 = files w.
Proof.
  intros Hnone. unfold Script.generate_icons, bind, os_path_exists.
  rewrite bool_decide_eq_false_2 by (rewrite Hnone; apply is_Some_None).
  split; reflexivity.
Qed.

(** X7. Run as a program: with the master missing the script ends with
    status 0 and has changed no file; when a tool invocation cannot be
    started it ends with status 1; and a status 0 with the master
    present means that every tool invocation started and that the
    manifest holds the entries of the resizes that succeeded. *)
Theorem exit_status_of_main (w : World Ext) :
  let code := (main w).1 in
  let w' := (main w).2 in
  w' = (generate_icons w).2 /\
  (files w !! master_icon = None -> code = 0%Z /\ files w' = files w) /\
  (is_Some (files w !! master_icon) -> code = 0%Z ->
   Forall launched (new_calls w w') /\
   files w' !! contents_path
   = Some (Text (json_dumps 2
                   (contents (map entry (survivors configs (tail (new_calls w w')))))))) /\
  (forall calls0 call rest,
     new_calls w w' = calls0 ++ call :: rest ->
     status call = NotLaunched ->
     code = 1%Z).
Proof.
  cbv zeta.
  pose proof (raises_only_on_launch_failure_aux w) as (_ & Hiff & _).
  pose proof (missing_master_unchanged w) as Hmiss.
  pose proof (launch_failure_aux w) as Hfail.
  pose proof (fun Hm => new_calls_run spawn float_repr w (generate_icons w).2
                          (generate_icons w).1 Hm
                          (surjective_pairing (generate_icons w))) as Hrun.
  unfold Script.main. destruct (generate_icons w) as [r w'] eqn:Hgen.
  cbn [fst snd] in *.
  assert (Hcode : (match r with Ret _ => (0%Z, w') | Raise _ => (1%Z, w') end).1
                  = match r with Ret _ => 0%Z | Raise _ => 1%Z end)
    by (destruct r; reflexivity).
  assert (Hw : (match r with Ret _ => (0%Z, w') | Raise _ => (1%Z, w') end).2 = w')
    by (destruct r; reflexivity).
  rewrite Hcode, Hw. split; [reflexivity |]. split; [| split].
  - intros Hnone. destruct (Hmiss Hnone) as [-> ->]. split; reflexivity.
  - intros Hm Hzero.
    assert (Hr : r = Ret tt) by (destruct r as [[] | e]; [reflexivity | discriminate]).
    pose proof (proj1 Hiff Hr) as Hall. split; [exact Hall |].
    destruct (Hrun Hm) as (log & lines & Hn & Hl & _). cbv zeta in *.
    destruct (Hl Hall) as (_ & _ & Hfile & _). rewrite Hn. exact Hfile.
  - intros calls0 call rest Hcalls Hn.
    destruct (Hfail _ _ _ Hcalls Hn) as (-> & _). reflexivity.
Qed.

(** *** What the script itself writes *)

Lemma files_after_call_eq (w : World Ext) args :
  files (after_call w args) = (spawn args (env w) (files w)).2.
Proof.
  unfold Obs.after_call. destruct (spawn _ _ _) as [[st e'] fs']. reflexivity.
Qed.

Lemma call_status_eq (w : World Ext) args :
  call_status w args = (spawn args (env w) (files w)).1.1.
Proof. reflexivity. Qed.

Lemma after_resize_facts (w : World Ext) inp out width height :
  let args := sips_argv inp out width height in
  files (after_resize w inp out width height) = files (after_call w args) /\
  procs (after_resize w inp out width height) = procs (after_call w args).
Proof.
  unfold Obs.after_resize. rewrite resize_image_run. cbv zeta.
  destruct (call_status w _) as [[| p | p] |]; split; reflexivity.
Qed.

(** The steps of a run that finds the master: the normalisation, the
    loop, then the manifest and the success line. *)
Lemma generate_icons_steps (w : World Ext) r w' :
  is_Some (files w !! master_icon) ->
  generate_icons w = (r, w') ->
  let w1 := after_resize w master_icon master_icon 1024 1024 in
  (call_status w normalize_args = NotLaunched /\ r = Raise OSError /\ w' = w1)
  \/
  (call_status w normalize_args <> NotLaunched /\
   exists r1 w2,
     for_configs configs [] w1 = (r1, w2) /\
     match r1 with
     | Ret json_images =>
         r = Ret tt /\
         w' = with_line
                (MkWorld (<[contents_path := Text (json_dumps 2 (contents json_images))]>
                            (files w2)) (env w2) (stdout w2) (procs w2))
                success_line
     | Raise e => r = Raise e /\ w' = w2
     end).
Proof.
  intros Hm Hrun. cbv zeta. unfold Obs.after_resize.
  unfold Script.generate_icons, bind, os_path_exists in Hrun.
  rewrite (bool_decide_eq_true_2 _ Hm) in Hrun.
  change (negb true) with false in Hrun. cbv beta iota in Hrun.
  rewrite resize_image_run in Hrun |- *. fold normalize_args in Hrun |- *.
  cbv zeta in Hrun |- *.
  destruct (call_status w normalize_args) as [code |] eqn:Hst.
  - right. split; [discriminate |].
    destruct code as [| p | p]; cbn [snd];
      match type of Hrun with
      | context [for_configs configs [] ?w1] =>
          destruct (for_configs configs [] w1) as [r1 w2] eqn:Hloop
      end;
      exists r1, w2; (split; [reflexivity |]);
      destruct r1; apply pair_equal_spec in Hrun as [<- <-]; split; reflexivity.
  - left. apply pair_equal_spec in Hrun as [<- <-]. repeat split.
Qed.

(** A relation between worlds that every step of the tool and every
    printed line respects is respected by [resize_image] and by the
    loop. *)
Section Invariant.

Variable R : World Ext -> World Ext -> Prop.
Hypothesis R_refl : forall w, R w w.
Hypothesis R_trans : forall a b c, R a b -> R b c -> R a c.
Hypothesis R_call : forall w args, R w (after_call w args).
Hypothesis R_line : forall w line, R w (with_line w line).



End Invariant.



(** *** The manifest and the files *)

Lemma for_configs_local cs :
  Forall sized cs ->
  NoDup (map icon_path cs) ->
  sips_local spawn ->
  forall acc (w : World Ext) r w' log,
    for_configs cs acc w = (r, w') ->
    procs w' = procs w ++ log ->
    Forall launched log ->
    (forall c, c ∈ survivors cs log ->
       files w' !! icon_path c = Some (Image (pixels c) (pixels c))) /\
    (forall p, p ∉ map icon_path cs -> files w' !! p = files w !! p).
Proof.
  induction 1 as [| c cs [px Hpx] Hsized IH]; intros Hnd Hlocal acc w r w' log Hrun Hp Hall.
  - apply pair_equal_spec in Hrun as [_ <-]. split; [| reflexivity].
    intros c Hc. destruct log; cbn in Hc; apply elem_of_nil in Hc as [].
  - cbn [map] in Hnd. apply NoDup_cons in Hnd as [Hfresh Hnd].
    rewrite (for_configs_cons c cs acc w px Hpx) in Hrun.
    pose proof (procs_after_call spawn w (resize_args c px)) as Hp1.
    pose proof (files_after_call_eq w (resize_args c px)) as Hf1.
    destruct (Hlocal master_icon (icon_path c) px px (env w) (files w))
      as [Hframe Hwrite].
    fold (resize_args c px) in Hframe, Hwrite. rewrite <- Hf1 in Hframe, Hwrite.
    rewrite <- call_status_eq in Hwrite.
    destruct (call_status w (resize_args c px)) as [code |] eqn:Hst.
    + set (call := ProcCall (resize_args c px) (Exited code)) in *.
      set (w1 := if decide (code = 0%Z) then after_call w (resize_args c px)
                 else with_line (after_call w (resize_args c px))
                        (resize_diagnostic master_icon (icon_path c))).
      assert (Hw1f : files w1 = files (after_call w (resize_args c px)))
        by (subst w1; destruct (decide _); reflexivity).
      assert (Hw1p : procs w1 = procs w ++ [call])
        by (subst w1; destruct (decide _); exact Hp1).
      assert (Hrun1 : for_configs cs
                        (if decide (code = 0%Z) then acc ++ [entry c] else acc) w1
                      = (r, w')).
      { subst w1. destruct (decide (code = 0%Z)) as [-> | Hne]; [exact Hrun |].
        destruct code; [congruence | exact Hrun | exact Hrun]. }
      clearbody w1. clear Hrun.
      destruct (for_configs_trace cs Hsized _ _ _ _ Hrun1) as (log' & Hlog' & _).
      assert (Hlog : log = call :: log').
      { rewrite Hlog', Hw1p, <- app_assoc in Hp. apply app_inv_head in Hp.
        symmetry. exact Hp. }
      subst log. apply Forall_cons_1 in Hall as [_ Hall].
      destruct (IH Hnd Hlocal _ _ _ _ _ Hrun1 Hlog' Hall) as [IHa IHb].
      split.
      * intros c0 Hc0. cbn [survivors] in Hc0.
        assert (Hcases : (succeededb call = true /\ c0 = c) \/ c0 ∈ survivors cs log').
        { destruct (succeededb call); [| right; exact Hc0].
          apply elem_of_cons in Hc0 as [Heq | Hin]; [left | right]; auto. }
        destruct Hcases as [[Hs ->] | Hc1]; [| apply IHa; exact Hc1].
        rewrite (IHb _ Hfresh), Hw1f, (pixels_sized _ _ Hpx). apply Hwrite.
        apply (proj1 (succeededb_true call)) in Hs. exact Hs.
      * intros p Hp0. cbn [map] in Hp0. apply not_elem_of_cons in Hp0 as [Hne Hp0].
        rewrite (IHb _ Hp0), Hw1f. apply Hframe. exact Hne.
    + apply pair_equal_spec in Hrun as [_ <-]. rewrite Hp1 in Hp.
      apply app_inv_head in Hp. subst log.
      apply Forall_cons_1 in Hall as [Hl _]. exfalso. apply Hl. reflexivity.
Qed.

(** X5. When each [sips] command touches its own output path only and
    leaves the requested image there on success, every entry of the
    manifest of a run that returns names a file that exists at the end of
    the run, in the directory of the master, with the pixel size of its
    specification on both axes. *)
Theorem manifest_entries_have_files (w : World Ext) r w' :
  sips_local spawn ->
  is_Some (files w !! master_icon) ->
  generate_icons w = (r, w') ->
  Forall launched (new_calls w w') ->
  files w' !! contents_path
  = Some (Text (json_dumps 2
                  (contents (map entry (survivors configs (tail (new_calls w w'))))))) /\
  Forall (fun c =>
            json_field "filename" (entry c) = Some (JStr (icon_filename c)) /\
            files w' !! os_path_join base_dir (icon_filename c)
            = Some (Image (pixels c) (pixels c)))
         (survivors configs (tail (new_calls w w'))).
Proof.
  intros Hlocal Hm Hrun Hall.
  destruct (new_calls_run spawn float_repr w w' r Hm Hrun)
    as (log & lines & Hn & Hl & _).
  cbv zeta in *. destruct (Hl Hall) as (_ & _ & Hfile & _).
  rewrite Hn in Hall |- *. cbn [tail]. apply Forall_cons_1 in Hall as [Hnl Hall].
  split; [exact Hfile |].
  destruct (generate_icons_steps w r w' Hm Hrun)
    as [(Hst & _) | (_ & r1 & w2 & Hloop & Hend)];
    [exfalso; apply Hnl; exact Hst |].
  destruct (for_configs_trace configs configs_sized _ _ _ _ Hloop)
    as (log' & Hlog' & _ & _ & Hres).
  assert (Hprocs : procs w' = procs w2).
  { destruct r1; destruct Hend as [_ ->]; reflexivity. }
  assert (Hlog : log' = log).
  { pose proof (after_resize_facts w master_icon master_icon 1024 1024) as [_ Hp1].
    cbv zeta in Hp1. fold normalize_args in Hp1.
    rewrite (procs_after_call spawn) in Hp1.
    unfold new_calls in Hn. rewrite Hprocs, Hlog', Hp1, <- app_assoc in Hn.
    rewrite drop_app_length in Hn. injection Hn as Hn. exact Hn. }
  subst log'.
  destruct (for_configs_local configs configs_sized icon_paths_distinct Hlocal
              _ _ _ _ _ Hloop Hlog' Hall) as [Ha _].
  apply Forall_forall. intros c Hc. split; [reflexivity |].
  fold (icon_path c).
  assert (Hfiles : files w' !! icon_path c = files w2 !! icon_path c).
  { destruct r1 as [imgs | e]; destruct Hend as [_ ->]; [| reflexivity].
    cbn [with_line files]. apply lookup_insert_ne.
    intros Heq. pose proof contents_path_fresh as Hfresh.
    apply not_elem_of_cons in Hfresh as [_ Hfresh]. apply Hfresh. rewrite Heq.
    apply list_elem_of_In, in_map, list_elem_of_In.
    apply (sublist_subseteq _ _ (survivors_sublist configs log)). exact Hc. }
  rewrite Hfiles. apply Ha. exact Hc.
Qed.

Lemma write_all_absorb l (fs : gmap string file) :
  (forall k v, (k, v) ∈ l -> fs !! k = Some v) -> write_all l fs = fs.
Proof.
  induction l as [| [k v] l IH]; intros Hin; [reflexivity |].
  rewrite write_all_cons, insert_id by (apply Hin, list_elem_of_here).
  apply IH. intros k' v' H'. apply Hin, list_elem_of_further, H'.
Qed.

Lemma written_inv cs k v :
  (k, v) ∈ written cs ->
  exists c px, c ∈ cs /\ pixel_size c = Ret px /\ k = icon_path c /\ v = Image px px.
Proof.
  induction cs as [| c cs IH]; intros Hin; [apply elem_of_nil in Hin as [] |].
  cbn [written] in Hin. destruct (pixel_size c) as [px | e] eqn:Hpx.
  - apply elem_of_cons in Hin as [Heq | Hin].
    + injection Heq as -> ->. exists c, px. repeat split; auto.
      apply list_elem_of_here.
    + destruct (IH Hin) as (c' & px' & Hc' & H'). exists c', px'.
      split; [apply list_elem_of_further, Hc' | exact H'].
  - destruct (IH Hin) as (c' & px' & Hc' & H'). exists c', px'.
    split; [apply list_elem_of_further, Hc' | exact H'].
Qed.

(** X6. With a tool that leaves an image of the requested size at the
    output path whenever it reports success, a second run in which every
    resize succeeds again leaves the file map as the first run left it:
    the same paths, every image with the same pixel size and the
    manifest with the same text.  (Of an image the file map records the
    pixel size, not the pixels.) *)
Theorem second_run_changes_no_file (w0 w1 w2 : World Ext) r1 r2 :
  sips_contract spawn ->
  is_Some (files w0 !! master_icon) ->
  generate_icons w0 = (r1, w1) ->
  Forall succeeded (new_calls w0 w1) ->
  generate_icons w1 = (r2, w2) ->
  Forall succeeded (new_calls w1 w2) ->
  files w2 = files w1.
Proof.
  intros Hc Hm0 Hrun1 Hall1 Hrun2 Hall2.
  assert (Hstate : forall (wa wb : World Ext) ra,
             is_Some (files wa !! master_icon) ->
             generate_icons wa = (ra, wb) ->
             Forall succeeded (new_calls wa wb) ->
             files wb
             = <[contents_path := Text (json_dumps 2 (contents (map entry configs)))]>
                 (write_all (written configs)
                    (<[master_icon := Image 1024 1024]> (files wa)))).
  { intros wa wb ra Hm Hrun Hall.
    destruct (new_calls_run spawn float_repr wa wb ra Hm Hrun)
      as (log & lines & Hn & _ & Hf).
    cbv zeta in *.
    assert (Hla : Forall launched (new_calls wa wb))
      by (eapply Forall_impl; [exact Hall | exact succeeded_launched]).
    rewrite Hn in Hall. apply Forall_cons_1 in Hall as [Hs Hall].
    destruct (Hf Hc Hla Hall) as (fs1 & -> & Hnorm). rewrite (Hnorm Hs).
    reflexivity. }
  pose proof (Hstate _ _ _ Hm0 Hrun1 Hall1) as H1.
  destruct (files_of_full_run (<[master_icon := Image 1024 1024]> (files w0))
              (Text (json_dumps 2 (contents (map entry configs)))))
    as [Hd Hmaster].
  cbv zeta in Hd, Hmaster. rewrite <- H1 in Hd, Hmaster.
  rewrite lookup_insert_eq in Hmaster.
  assert (Hm1 : is_Some (files w1 !! master_icon)) by (rewrite Hmaster; eexists; reflexivity).
  rewrite (Hstate _ _ _ Hm1 Hrun2 Hall2).
  rewrite (insert_id (files w1) master_icon _ Hmaster).
  rewrite write_all_absorb.
  - apply insert_id. rewrite H1. apply lookup_insert_eq.
  - intros k v Hin. destruct (written_inv _ _ _ Hin) as (c & px & Hcin & Hpx & -> & ->).
    destruct (proj1 (Forall_forall _ _) Hd c Hcin) as (px' & Hpx' & Hfile).
    rewrite Hfile. congruence.
Qed.

Lemma survivors_outcomes cs log1 log2 :
  map succeededb log1 = map succeededb log2 ->
  survivors cs log1 = survivors cs log2.
Proof.
  revert log1 log2. induction cs as [| c cs IH]; intros [| a l1] [| b l2] H;
    try reflexivity; try discriminate.
  cbn [map] in H. injection H as Hab H. cbn [survivors].
  rewrite Hab, (IH _ _ H). reflexivity.
Qed.

(** X11. The text of the manifest depends on nothing but which of the
    18 resizes succeeded: two runs, even with different tools and from
    different states, whose per-specification calls succeed and fail at
    the same positions write the same manifest. *)
Theorem manifest_depends_on_outcomes_only
    {Ext' : Type}
    (spawn' : list string -> Ext' -> gmap string file ->
              proc_status * Ext' * gmap string file)
    (w : World Ext) r w' (v : World Ext') q v' :
  is_Some (files w !! master_icon) ->
  generate_icons w = (r, w') ->
  Forall launched (new_calls w w') ->
  is_Some (files v !! master_icon) ->
  Script.generate_icons spawn' float_repr v = (q, v') ->
  Forall launched (new_calls v v') ->
  map succeededb (tail (new_calls w w')) = map succeededb (tail (new_calls v v')) ->
  files w' !! contents_path = files v' !! contents_path.
Proof.
  intros Hm1 Hrun1 Hall1 Hm2 Hrun2 Hall2 Hsame.
  destruct (new_calls_run spawn float_repr w w' r Hm1 Hrun1)
    as (log1 & lines1 & Hn1 & Hl1 & _).
  destruct (new_calls_run spawn' float_repr v v' q Hm2 Hrun2)
    as (log2 & lines2 & Hn2 & Hl2 & _).
  cbv zeta in *.
  destruct (Hl1 Hall1) as (_ & _ & -> & _). destruct (Hl2 Hall2) as (_ & _ & -> & _).
  rewrite Hn1, Hn2 in Hsame. cbn [tail] in Hsame.
  rewrite (survivors_outcomes configs log1 log2 Hsame). reflexivity.
Qed.

(** *** One resize *)

(** X8. For paths without a NUL character and sizes that [str] can
    print, a call of [resize_image] makes exactly one attempt to start a
    child process, [sips -z <height> <width> <input> --out <output>]
    with the height before the width; it returns [True] exactly when
    that process exits with status 0, and then prints nothing; the files
    afterwards are those the process left. *)
Theorem resize_image_one_command (w : World Ext) inp out width height :
  no_nul inp -> no_nul out ->
  within_digit_limit width -> within_digit_limit height ->
  let run := resize_image inp out width height w in
  let args := ["sips"; "-z"; str_int height; str_int width; inp; "--out"; out] in
  new_calls w run.2 = [ProcCall args (call_status w args)] /\
  (run.1 = Ret true <-> call_status w args = Exited 0) /\
  (run.1 = Ret true -> stdout run.2 = stdout w) /\
  files run.2 = (spawn args (env w) (files w)).2.
Proof.
  intros _ _ _ _.
  cbv zeta. rewrite resize_image_run. cbv zeta.
  change (sips_argv inp out width height)
    with ["sips"; "-z"; str_int height; str_int width; inp; "--out"; out].
  set (args := ["sips"; "-z"; str_int height; str_int width; inp; "--out"; out]).
  pose proof (procs_after_call spawn w args) as Hp.
  pose proof (stdout_after_call spawn w args) as Ho.
  pose proof (files_after_call_eq w args) as Hf.
  destruct (call_status w args) as [[| p | p] |]; cbn [fst snd with_line files stdout];
    (split; [apply new_calls_app; exact Hp |]);
    (split; [split; congruence |]); (split; [| exact Hf]);
    first [intros _; exact Ho | discriminate].
Qed.

End MoreProperties.

(** *** Command lines and paths *)

Lemma str_int_round_trip z :
  option_map Z.of_int (NilZero.int_of_string (str_int z)) = Some z.
Proof. rewrite int_of_str_int. cbn [option_map]. rewrite DecimalZ.of_to. reflexivity. Qed.

Lemma str_int_inj z1 z2 : str_int z1 = str_int z2 -> z1 = z2.
Proof.
  intros H. pose proof (str_int_round_trip z1) as H1.
  rewrite H, str_int_round_trip in H1. congruence.
Qed.

(** X9. For sizes that [str] can print, the numbers on the command line
    are plain decimal strings that read back as the integers asked for,
    so a [sips] command line determines its request: two of them are
    equal only for the same paths, width and height. *)
Theorem command_line_determines_request
    inp out width height inp' out' width' height' :
  within_digit_limit width -> within_digit_limit height ->
  within_digit_limit width' -> within_digit_limit height' ->
  option_map Z.of_int (NilZero.int_of_string (str_int width)) = Some width /\
  option_map Z.of_int (NilZero.int_of_string (str_int height)) = Some height /\
  (sips_argv inp out width height = sips_argv inp' out' width' height'
   <-> inp = inp' /\ out = out' /\ width = width' /\ height = height').
Proof.
  intros _ _ _ _.
  split; [apply str_int_round_trip |]. split; [apply str_int_round_trip |].
  split.
  - unfold sips_argv. intros H. injection H as Hh Hw Hi Ho.
    apply str_int_inj in Hh, Hw. auto.
  - intros (-> & -> & -> & ->). reflexivity.
Qed.

Lemma append_cancel_l s t1 t2 : s +:+ t1 = s +:+ t2 -> t1 = t2.
Proof.
  induction s as [| a s IH]; intros H; [exact H |].
  cbn in H. injection H as H. apply IH. exact H.
Qed.

Lemma base_dir_is_open_directory :
  (String.length base_dir =? 0)%nat || ends_with_sep base_dir = false.
Proof. vm_compute. reflexivity. Qed.

Lemma icon_path_spelled c :
  icon_path c = base_dir +:+ "/Icon-" +:+ suffix c +:+ ".png".
Proof.
  unfold icon_path, os_path_join.
  change (starts_with_sep (icon_filename c)) with false. cbv iota.
  rewrite base_dir_is_open_directory. reflexivity.
Qed.

(** X10. The destination path handed to the tool is, as a string,
    [base_dir] followed by [/Icon-<suffix>.png], whatever the suffix is
    (the file name starts with [Icon-], so [os.path.join] never drops
    [base_dir]); two specifications get the same path string exactly
    when they have the same suffix, and no such string is the path
    string of the master. *)
Theorem destinations_next_to_master :
  master_icon = base_dir +:+ "/AppIcon.png" /\
  (forall c, icon_path c = base_dir +:+ "/Icon-" +:+ suffix c +:+ ".png") /\
  (forall c1 c2, icon_path c1 = icon_path c2 <-> suffix c1 = suffix c2) /\
  (forall c, icon_path c <> master_icon).
Proof.
  split; [vm_compute; reflexivity |]. split; [exact icon_path_spelled |]. split.
  - intros c1 c2. rewrite !icon_path_spelled. split; [| intros ->; reflexivity].
    intros H. apply append_cancel_l in H. cbn in H. injection H as H.
    apply (append_cancel_r (suffix c1) (suffix c2) ".png"). exact H.
  - intros c H. rewrite icon_path_spelled in H.
    assert (Hm : master_icon = base_dir +:+ "/AppIcon.png") by (vm_compute; reflexivity).
    rewrite Hm in H. apply append_cancel_l in H. cbn in H. discriminate.
Qed.

(** *** Sample runs for the further properties *)


Lemma spawn_except_local bad : sips_local (spawn_except bad).
Proof.
  intros inp out width height e fs. unfold spawn_except. cbn [sips_argv].
  destruct (String.eqb out bad); cbn [fst snd].
  - split; [reflexivity | discriminate].
  - rewrite sips_writes_argv. split.
    + intros p Hp. apply lookup_insert_ne. auto.
    + intros _. apply lookup_insert_eq.
Qed.

Lemma diagnostics_match_failures_witness :
  stdout (snd run_one_failure)
  = stdout world_with_master
      ++ map diagnostic_of
           (List.filter exited_nonzero (new_calls world_with_master (snd run_one_failure)))
      ++ match fst run_one_failure with
         | Ret _ => [success_line]
         | Raise _ => []
         end.
Proof.
  apply (diagnostics_match_failures (spawn_except (icon_path unlucky)) no_float_repr
           world_with_master).
  - decide_closed.
  - apply surjective_pairing.
Defined.


Lemma manifest_entries_have_files_witness :
  files (snd run_one_failure) !! contents_path
  = Some (Text (json_dumps 2
                  (contents
                     (map (entry no_float_repr)
                        (survivors configs
                           (tail (new_calls world_with_master (snd run_one_failure)))))))) /\
  Forall (fun c =>
            json_field "filename" (entry no_float_repr c) = Some (JStr (icon_filename c)) /\
            files (snd run_one_failure) !! os_path_join base_dir (icon_filename c)
            = Some (Image (pixels c) (pixels c)))
         (survivors configs (tail (new_calls world_with_master (snd run_one_failure)))).
Proof.
  apply (manifest_entries_have_files (spawn_except (icon_path unlucky)) no_float_repr
           world_with_master (fst run_one_failure)).
  - apply spawn_except_local.
  - decide_closed.
  - apply surjective_pairing.
  - decide_closed.
Defined.

Lemma second_run_changes_no_file_witness :
  files (snd run_ok_again) = files (snd run_ok).
Proof.
  apply (second_run_changes_no_file spawn_ok no_float_repr
           world_with_master (snd run_ok) (snd run_ok_again)
           (fst run_ok) (fst run_ok_again)).
  - exact spawn_ok_contract.
  - decide_closed.
  - apply surjective_pairing.
  - decide_closed.
  - apply surjective_pairing.
  - decide_closed.
Defined.

Lemma manifest_depends_on_outcomes_only_witness :
  files (snd run_ok) !! contents_path = files (snd run_not_in_place) !! contents_path.
Proof.
  apply (manifest_depends_on_outcomes_only spawn_ok no_float_repr spawn_not_in_place
           world_with_master (fst run_ok) (snd run_ok)
           world_with_master (fst run_not_in_place)).
  - decide_closed.
  - apply surjective_pairing.
  - decide_closed.
  - decide_closed.
  - apply surjective_pairing.
  - decide_closed.
  - vm_compute. reflexivity.
Defined.

(** A run cut short: the tool is gone after three commands, so the
    fourth cannot be started; the [OSError] ends the run, no manifest is
    written and the program ends with status 1. *)
Example run_cut_short_raises :
  fst run_cut_short = Raise OSError /\
  map argv (new_calls (world_with_fuel 3) (snd run_cut_short))
  = take 4 planned_commands /\
  files (snd run_cut_short) !! contents_path = None /\
  stdout (snd run_cut_short) = [] /\
  fst (main spawn_while no_float_repr (world_with_fuel 3)) = 1%Z.
Proof. repeat split; vm_compute; reflexivity. Qed.

Lemma launch_failure_ends_the_run_witness :
  fst run_cut_short = Raise OSError /\
  @nil proc_call = [] /\
  Forall launched (take 3 (new_calls (world_with_fuel 3) (snd run_cut_short))).
Proof.
  apply (proj2 (launch_failure_ends_the_run spawn_while no_float_repr (world_with_fuel 3))
           (take 3 (new_calls (world_with_fuel 3) (snd run_cut_short)))
           (ProcCall (resize_args (Config "29x29@2x" (PyInt 29) 2 "iphone") 58)
                     NotLaunched)
           []).
  - vm_compute. reflexivity.
  - reflexivity.
Defined.

Lemma exit_status_of_main_witness :
  fst (main spawn_ok no_float_repr empty_world) = 0%Z /\
  files (snd (main spawn_ok no_float_repr empty_world)) = files empty_world.
Proof.
  apply (proj1 (proj2 (exit_status_of_main spawn_ok no_float_repr empty_world))).
  vm_compute. reflexivity.
Defined.

(** Status 0 says nothing about the resizes: here every one failed. *)
Example exit_status_zero_with_all_resizes_failed :
  fst (main spawn_fail no_float_repr world_with_master) = 0%Z /\
  Forall failed (new_calls world_with_master
                   (snd (main spawn_fail no_float_repr world_with_master))).
Proof. split; [vm_compute; reflexivity | decide_closed]. Qed.

Lemma small_within_digit_limit z : (Z.abs z < 10000)%Z -> within_digit_limit z.
Proof.
  unfold within_digit_limit. intros H. eapply Z.lt_trans; [exact H |].
  apply Z.ltb_lt. vm_compute. reflexivity.
Qed.

Lemma resize_image_one_command_witness :
  let run := resize_image spawn_ok master_icon (icon_path unlucky) 60 40
               world_with_master in
  let args := ["sips"; "-z"; str_int 40; str_int 60; master_icon; "--out";
               icon_path unlucky] in
  new_calls world_with_master run.2
  = [ProcCall args (call_status spawn_ok world_with_master args)] /\
  (run.1 = Ret true <-> call_status spawn_ok world_with_master args = Exited 0) /\
  (run.1 = Ret true -> stdout run.2 = stdout world_with_master) /\
  files run.2 = (spawn_ok args (env world_with_master) (files world_with_master)).2.
Proof.
  apply (resize_image_one_command spawn_ok world_with_master
           master_icon (icon_path unlucky) 60 40).
  - decide_closed.
  - decide_closed.
  - apply small_within_digit_limit. reflexivity.
  - apply small_within_digit_limit. reflexivity.
Defined.

Lemma command_line_determines_request_witness :
  option_map Z.of_int (NilZero.int_of_string (str_int 60)) = Some 60%Z /\
  option_map Z.of_int (NilZero.int_of_string (str_int 40)) = Some 40%Z /\
  (sips_argv master_icon (icon_path unlucky) 60 40
   = sips_argv master_icon (icon_path unlucky) 40 60
   <-> master_icon = master_icon /\ icon_path unlucky = icon_path unlucky /\
       60%Z = 40%Z /\ 40%Z = 60%Z).
Proof.
  apply (command_line_determines_request
           master_icon (icon_path unlucky) 60 40
           master_icon (icon_path unlucky) 40 60);
    apply small_within_digit_limit; reflexivity.
Defined.
